(** * Synchronized dual-chart viewer: viewport, pan/zoom and drag engine

    Shallow embedding of [src/App.tsx] (the top-level state and its
    coordinate handlers) and of [components/LineChart.tsx] (the per-chart
    gesture handlers and the derived visible window).

    JavaScript numbers are idealised as exact rationals ([Q]); [Math.floor],
    [Math.ceil] and [Math.round] are the exact integer roundings.  Division
    is [Qdiv]; it agrees with the source wherever the divisor is non-zero,
    which is the case for every division the theorems below go through
    (zoom is at least 1, the data arrays are non-empty). *)

From Stdlib Require Import QArith Qround Qminmax Qabs ZArith NArith.
From Stdlib Require Import List String Ascii Bool Lia Lqa DecimalString.
From Stdlib Require DecimalN DecimalPos.
Import ListNotations.

#[local] Open Scope Q_scope.

(** ** JavaScript numeric primitives *)

Module JS.

Definition Math_floor (x : Q) : Q := inject_Z (Qfloor x).
Definition Math_ceil (x : Q) : Q := inject_Z (Qceiling x).
(** [Math.round] rounds halves towards plus infinity. *)
Definition Math_round (x : Q) : Q := inject_Z (Qfloor (x + (1 # 2))).
Definition Math_max (x y : Q) : Q := Qmax x y.
Definition Math_min (x y : Q) : Q := Qmin x y.
Definition Math_abs (x : Q) : Q := Qabs x.

(** [x > y], [x < y], [x <= y] and [x === y] on numbers. *)
Definition gt (x y : Q) : bool := negb (Qle_bool x y).
Definition lt (x y : Q) : bool := negb (Qle_bool y x).
Definition le (x y : Q) : bool := Qle_bool x y.
Definition strict_eq (x y : Q) : bool := Qeq_bool x y.

(** [array.length] as a number. *)
Definition length {A} (l : list A) : Q := inject_Z (Z.of_nat (List.length l)).

(** A number that is a whole number. *)
Definition is_integer (x : Q) : Prop := inject_Z (Qfloor x) == x.
Definition is_integerb (x : Q) : bool := Qeq_bool (inject_Z (Qfloor x)) x.

(** [data[i] || 0]: the sample at [i], and [0] when [i] is not an index of
    the array (the lookup is then [undefined], which is falsy). *)
Definition index_or_zero (data : list Q) (i : Q) : Q :=
  if is_integerb i && le 0 i
  then nth (Z.to_nat (Qfloor i)) data 0
  else 0.

(** Template-literal rendering of a non-negative whole number. *)
Definition decimal (n : N) : string := NilZero.string_of_uint (N.to_uint n).

(** [parseFloat(x.toFixed(2))]: the nearest multiple of 1/100, ties going
    to the larger magnitude ([toFixed] rounds the absolute value and puts
    the sign back). *)
Definition toFixed2 (x : Q) : Q :=
  if lt x 0
  then - (inject_Z (Qfloor (- x * 100 + (1 # 2))) / 100)
  else inject_Z (Qfloor (x * 100 + (1 # 2))) / 100.

End JS.

(** ** The [Annotation] interface (shared by both source files) *)

Module Annotation.
Record t : Type := mk { id : string; value : Q; color : string }.
Definition with_value (a : t) (v : Q) : t :=
  {| id := id a; value := v; color := color a |}.
End Annotation.

(** ** components/LineChart.tsx *)

Module LineChart.

Inductive InstructionsPosition : Type := top | bottom | hidden.

(** The data part of [LineChartProps]; the five callback props are the
    constructors of [Callback] below. *)
Record Props : Type := {
  data : list Q;
  annotations : list Annotation.t;
  currentPosition : Q;
  zoom : Q;
  panX : Q;
  hideXAxis : bool;
  hideTitle : bool;
  instructionsPosition : InstructionsPosition
}.

(** An invocation of one of the callback props. *)
Inductive Callback : Type :=
| onAnnotationDrag (id : string) (value : Q)
| onCurrentPositionDrag (value : Q)
| onInteractiveZoom (delta centerX : Q)
| onInteractivePan (deltaX : Q)
| onAddAnnotation.

Inductive MarkerType : Type := annotation | current.

(** The object returned by [getClosestAnnotation]; it is also what
    [setDragging] stores. *)
Record Closest : Type := {
  type : MarkerType;
  id : string;
  name : string;
  position : Q;
  value : Q
}.

(** Tooltip text, kept structured: marker name, position and sample value
    (the source formats the value with [toFixed(2)]). *)
Inductive TooltipContent : Type :=
| no_content
| marker_content (name : string) (position value : Q).

Record Tooltip : Type := {
  visible : bool;
  x : Q;
  y : Q;
  content : TooltipContent
}.

Definition hidden_tooltip : Tooltip :=
  {| visible := false; x := 0; y := 0; content := no_content |}.

(** Component-local state of one chart view, with the canvas cursor. *)
Record State : Type := {
  dragging : option Closest;
  tooltip : Tooltip;
  isPanning : bool;
  panStartX : Q;
  cursor : string
}.

Definition initial : State :=
  {| dragging := None; tooltip := hidden_tooltip; isPanning := false;
     panStartX := 0; cursor := EmptyString |}.

(** The rendering surface behind [chartRef.current]: the canvas' left
    edge, the x scale's pixel-to-value lookup (which may fail), and the
    plotted area when it is laid out. *)
Record ChartArea : Type := { left : Q; right : Q }.
Record Chart : Type := {
  rect_left : Q;
  getValueForPixel : Q -> option Q;
  chartArea : option ChartArea
}.

Module MouseEvent.
Record t : Type := mk { clientX : Q; clientY : Q }.
End MouseEvent.

Module WheelEvent.
Record t : Type := mk { ctrlKey : bool; deltaY : Q; clientX : Q }.
End WheelEvent.

(** What a handler has done so far: the pending local state and the
    callbacks it has invoked, oldest first. *)
Record Effects : Type := { next : State; calls : list Callback }.

Definition setDragging (d : option Closest) (e : Effects) : Effects :=
  {| next := {| dragging := d; tooltip := tooltip (next e);
                isPanning := isPanning (next e);
                panStartX := panStartX (next e);
                cursor := cursor (next e) |};
     calls := calls e |}.

Definition setTooltip (t : Tooltip) (e : Effects) : Effects :=
  {| next := {| dragging := dragging (next e); tooltip := t;
                isPanning := isPanning (next e);
                panStartX := panStartX (next e);
                cursor := cursor (next e) |};
     calls := calls e |}.

Definition setIsPanning (b : bool) (e : Effects) : Effects :=
  {| next := {| dragging := dragging (next e); tooltip := tooltip (next e);
                isPanning := b;
                panStartX := panStartX (next e);
                cursor := cursor (next e) |};
     calls := calls e |}.

Definition setPanStartX (px : Q) (e : Effects) : Effects :=
  {| next := {| dragging := dragging (next e); tooltip := tooltip (next e);
                isPanning := isPanning (next e);
                panStartX := px;
                cursor := cursor (next e) |};
     calls := calls e |}.

Definition setCursor (c : string) (e : Effects) : Effects :=
  {| next := {| dragging := dragging (next e); tooltip := tooltip (next e);
                isPanning := isPanning (next e);
                panStartX := panStartX (next e);
                cursor := c |};
     calls := calls e |}.

Definition call (cb : Callback) (e : Effects) : Effects :=
  {| next := next e; calls := calls e ++ [cb] |}.

(** The [for ... of annotations.entries()] loop of [getClosestAnnotation],
    started at entry [index]. *)
Fixpoint closestAmong (data : list Q) (dataX : Q) (index : nat)
    (l : list Annotation.t) : option Closest :=
  match l with
  | [] => None
  | a :: rest =>
      if JS.lt (JS.Math_abs (Annotation.value a - dataX)) 10
      then Some {| type := annotation;
                   id := Annotation.id a;
                   name := "Annotation " ++ JS.decimal (N.of_nat (index + 1));
                   position := Annotation.value a;
                   value := JS.index_or_zero data (Annotation.value a) |}
      else closestAmong data dataX (S index) rest
  end.

(** Everything below closes over one render: its props [p], the surface
    [chart] behind the ref and the local state [v] of that render.  A
    handler reads [p], [chart] and [v] and extends the effects so far. *)
Section Render.

Variable p : Props.
Variable chart : option Chart.
Variable v : State.

Definition getClosestAnnotation (x : Q) : option Closest :=
  match chart with
  | None => None
  | Some c =>
      match getValueForPixel c x with
      | None => None
      | Some dataX =>
          if JS.lt (JS.Math_abs (currentPosition p - dataX)) 10
          then Some {| type := current;
                       id := "currentPosition";
                       name := "Current Position";
                       position := currentPosition p;
                       value := JS.index_or_zero (data p) (currentPosition p) |}
          else closestAmong (data p) dataX 0 (annotations p)
      end
  end.

Definition handleMouseDown (event : MouseEvent.t) (e : Effects) : Effects :=
  match chart with
  | None => e
  | Some c =>
      let x := MouseEvent.clientX event - rect_left c in
      match getClosestAnnotation x with
      | Some closest => setCursor "grabbing" (setDragging (Some closest) e)
      | None => e
      end
  end.

Definition handleMouseMove (event : MouseEvent.t) (e : Effects) : Effects :=
  match chart with
  | None => e
  | Some c =>
      let x := MouseEvent.clientX event - rect_left c in
      match dragging v with
      | Some d =>
          let e1 :=
            match getValueForPixel c x with
            | Some dataX =>
                let newValue :=
                  JS.Math_max 0
                    (JS.Math_min (JS.length (data p) - 1) (JS.Math_round dataX)) in
                match type d with
                | current => call (onCurrentPositionDrag newValue) e
                | annotation =>
                    if negb (String.eqb (id d) EmptyString)
                    then call (onAnnotationDrag (id d) newValue) e
                    else e
                end
            | None => e
            end in
          setTooltip hidden_tooltip e1
      | None =>
          match getClosestAnnotation x with
          | Some closest =>
              setTooltip
                {| visible := true;
                   x := MouseEvent.clientX event;
                   y := MouseEvent.clientY event - 10;
                   content := marker_content (name closest) (position closest)
                                (value closest) |}
                (setCursor "grab" e)
          | None => setTooltip hidden_tooltip (setCursor "default" e)
          end
      end
  end.

Definition handleMouseUp (e : Effects) : Effects :=
  match chart with
  | None => e
  | Some _ =>
      let e1 :=
        match dragging v with
        | Some _ => setCursor "default" (setDragging None e)
        | None => e
        end in
      setTooltip hidden_tooltip e1
  end.

Definition handleMouseLeave (e : Effects) : Effects :=
  match chart with
  | None => e
  | Some _ =>
      setTooltip hidden_tooltip (setCursor "default" (setDragging None e))
  end.

Definition handleWheel (event : WheelEvent.t) (e : Effects) : Effects :=
  if negb (WheelEvent.ctrlKey event) then e else
  match chart with
  | None => e
  | Some c =>
      let x := WheelEvent.clientX event - rect_left c in
      match getValueForPixel c x with
      | Some dataX => call (onInteractiveZoom (- WheelEvent.deltaY event) dataX) e
      | None => e
      end
  end.

Definition handlePanStart (event : MouseEvent.t) (e : Effects) : Effects :=
  match chart with
  | None => e
  | Some c =>
      let x := MouseEvent.clientX event - rect_left c in
      match getClosestAnnotation x with
      | Some _ => e
      | None =>
          setCursor "grabbing"
            (setPanStartX (MouseEvent.clientX event) (setIsPanning true e))
      end
  end.

Definition handlePanMove (event : MouseEvent.t) (e : Effects) : Effects :=
  if isPanning v then
    let deltaPixels := MouseEvent.clientX event - panStartX v in
    match chart with
    | None => e
    | Some c =>
        match chartArea c with
        | None => e
        | Some area =>
            let chartWidth := right area - left area in
            let visibleDataPoints := JS.Math_ceil (JS.length (data p) / zoom p) in
            let pixelsPerDataPoint := chartWidth / visibleDataPoints in
            let dataIndexDelta := - deltaPixels / pixelsPerDataPoint in
            setPanStartX (MouseEvent.clientX event)
              (call (onInteractivePan dataIndexDelta) e)
        end
    end
  else e.

Definition handlePanEnd (e : Effects) : Effects :=
  if isPanning v then
    let e1 := setIsPanning false e in
    match chart with
    | Some _ => setCursor "default" e1
    | None => e1
    end
  else e.

Definition handleDoubleClick (e : Effects) : Effects :=
  call onAddAnnotation e.

Definition handleCombinedMouseDown (event : MouseEvent.t) (e : Effects) : Effects :=
  handlePanStart event (handleMouseDown event e).

Definition handleCombinedMouseMove (event : MouseEvent.t) (e : Effects) : Effects :=
  handlePanMove event (handleMouseMove event e).

Definition handleCombinedMouseUp (e : Effects) : Effects :=
  handlePanEnd (handleMouseUp e).

(** The window handed to the x scale ([min] and [max]). *)
Definition visibleDataPoints : Q := JS.Math_ceil (JS.length (data p) / zoom p).
Definition startIndex : Q :=
  JS.Math_floor (panX p * (JS.length (data p) - visibleDataPoints)).
Definition endIndex : Q := startIndex + visibleDataPoints.

End Render.

(** The DOM events the wrapping [div] listens to. *)
Inductive DomEvent : Type :=
| MouseDown (event : MouseEvent.t)
| MouseMove (event : MouseEvent.t)
| MouseUp
| MouseLeave
| Wheel (event : WheelEvent.t)
| DoubleClick.

(** The listener table of the wrapping [div], run on a fresh effect
    record for the render's state. *)
Definition handle (p : Props) (chart : option Chart) (v : State)
    (ev : DomEvent) : Effects :=
  let e0 := {| next := v; calls := [] |} in
  match ev with
  | MouseDown event => handleCombinedMouseDown p chart event e0
  | MouseMove event => handleCombinedMouseMove p chart v event e0
  | MouseUp => handleCombinedMouseUp chart v e0
  | MouseLeave => handleMouseLeave chart e0
  | Wheel event => handleWheel chart event e0
  | DoubleClick => handleDoubleClick e0
  end.

(** *** Rendering: colours, marker lines, tooltip filter *)

Record Rgb : Type := { r : Q; g : Q; b : Q }.

(** One character of the class [[a-f\d]] under the [i] flag. *)
Definition hex_digit (c : ascii) : option N :=
  let n := N_of_ascii c in
  if ((48 <=? n) && (n <=? 57))%N then Some (n - 48)%N
  else if ((97 <=? n) && (n <=? 102))%N then Some (n - 87)%N
  else if ((65 <=? n) && (n <=? 70))%N then Some (n - 55)%N
  else None.

(** [parseInt(group, 16)] on a captured group of two hex digits. *)
Definition parse_hex_pair (c1 c2 : ascii) : option Q :=
  match hex_digit c1, hex_digit c2 with
  | Some h, Some l => Some (inject_Z (Z.of_N (16 * h + l)))
  | _, _ => None
  end.

(** The pattern is an optional [#] followed by exactly six hex digits;
    [None] is the source's [null]. *)
Definition hexToRgb (hex : string) : option Rgb :=
  let digits :=
    match hex with
    | String "#"%char rest => rest
    | _ => hex
    end in
  match digits with
  | String r1 (String r2 (String g1 (String g2 (String b1 (String b2 EmptyString))))) =>
      match parse_hex_pair r1 r2, parse_hex_pair g1 g2, parse_hex_pair b1 b2 with
      | Some red, Some green, Some blue => Some {| r := red; g := green; b := blue |}
      | _, _, _ => None
      end
  | _ => None
  end.

(** A CSS colour: a string taken as it is, or the [rgb(r, g, b)] template
    with its three numbers. *)
Inductive CssColor : Type :=
| css_string (s : string)
| css_rgb (red green blue : Q).

(** The label text: [Current: position] or [A<number>: value]. *)
Inductive LabelContent : Type :=
| current_label (position : Q)
| annotation_label (number : nat) (value : Q).

(** The fields of a line annotation's configuration that vary; the
    remaining ones are the same constants for every line. *)
Record LineConfig : Type := {
  line_value : Q;
  borderColor : CssColor;
  borderWidth : Q;
  label_content : LabelContent;
  label_backgroundColor : CssColor;
  z : Q
}.



(** [dragging?.type === "annotation" && dragging.id === annotation.id]. *)
Definition isDragging (v : State) (a : Annotation.t) : bool :=
  match dragging v with
  | Some d =>
      match type d with
      | annotation => String.eqb (id d) (Annotation.id a)
      | current => false
      end
  | None => false
  end.


Definition annotationConfig (v : State) (index : nat) (a : Annotation.t)
    : LineConfig :=
  {| line_value := Annotation.value a;
     borderColor :=
       if isDragging v a then
         match hexToRgb (Annotation.color a) with
         | Some rgb =>
             css_rgb (JS.Math_max 0 (r rgb - 20)) (JS.Math_max 0 (g rgb - 20))
               (JS.Math_max 0 (b rgb - 20))
         | None => css_string (Annotation.color a)
         end
       else css_string (Annotation.color a);
     borderWidth := if isDragging v a then 4 else 3;
     label_content := annotation_label (index + 1) (Annotation.value a);
     label_backgroundColor := css_string (Annotation.color a);
     z := 99 |}.



(** The [filter] of the point tooltip, on the hovered point's x. *)
Definition tooltipFilter (p : Props) (mouseX : Q) : bool :=
  let isNearAnnotation :=
    existsb (fun ann => JS.lt (JS.Math_abs (Annotation.value ann - mouseX)) 5)
      (annotations p)
    || JS.lt (JS.Math_abs (currentPosition p - mouseX)) 5 in
  negb isNearAnnotation.

End LineChart.

(** ** src/App.tsx *)

Module App.

Definition ANNOTATION_COLORS : list string :=
  [ "#10B981"; "#8B5CF6"; "#F59E0B"; "#EF4444";
    "#06B6D4"; "#84CC16"; "#F97316"; "#EC4899" ]%string.

(** The state hooks of [App].  The two series come from
    [generateDummyData], which draws on [Math.random]; they are taken as
    given and never written afterwards. *)
Record State : Type := {
  data1 : list Q;
  data2 : list Q;
  annotations : list Annotation.t;
  currentPosition : Q;
  zoom : Q;
  panX : Q
}.

Definition initial (d1 d2 : list Q) : State :=
  {| data1 := d1; data2 := d2; annotations := [];
     currentPosition := 250; zoom := 2; panX := 1 # 2 |}.

Definition setAnnotations (f : list Annotation.t -> list Annotation.t)
    (s : State) : State :=
  {| data1 := data1 s; data2 := data2 s; annotations := f (annotations s);
     currentPosition := currentPosition s; zoom := zoom s; panX := panX s |}.

Definition setCurrentPosition (c : Q) (s : State) : State :=
  {| data1 := data1 s; data2 := data2 s; annotations := annotations s;
     currentPosition := c; zoom := zoom s; panX := panX s |}.

Definition setZoom (z : Q) (s : State) : State :=
  {| data1 := data1 s; data2 := data2 s; annotations := annotations s;
     currentPosition := currentPosition s; zoom := z; panX := panX s |}.

Definition setPanX (px : Q) (s : State) : State :=
  {| data1 := data1 s; data2 := data2 s; annotations := annotations s;
     currentPosition := currentPosition s; zoom := zoom s; panX := px |}.

Definition handleAnnotationDrag (id : string) (value : Q) (s : State) : State :=
  setAnnotations
    (map (fun annotation =>
            if String.eqb (Annotation.id annotation) id
            then Annotation.with_value annotation
                   (JS.Math_max 0
                      (JS.Math_min (JS.length (data1 s) - 1) (JS.Math_round value)))
            else annotation))
    s.

Definition handleCurrentPositionDrag (value : Q) (s : State) : State :=
  setCurrentPosition
    (JS.Math_max 0 (JS.Math_min (JS.length (data1 s) - 1) (JS.Math_round value)))
    s.

(** [now] is the reading of [Date.now()]. *)
Definition handleAddAnnotation (now : N) (s : State) : State :=
  let visibleDataPoints := JS.Math_ceil (JS.length (data1 s) / zoom s) in
  let startIndex :=
    JS.Math_floor (panX s * (JS.length (data1 s) - visibleDataPoints)) in
  let centerPosition := startIndex + JS.Math_floor (visibleDataPoints / 2) in
  let newAnnotation :=
    {| Annotation.id := "annotation-" ++ JS.decimal now;
       Annotation.value := centerPosition;
       Annotation.color :=
         nth (List.length (annotations s) mod List.length ANNOTATION_COLORS)
             ANNOTATION_COLORS EmptyString |} in
  setAnnotations (fun prev => prev ++ [newAnnotation]) s.

Definition handleInteractiveZoom (delta centerX : Q) (s : State) : State :=
  let zoomFactor := if JS.gt delta 0 then 12 # 10 else 8 # 10 in
  let newZoom := JS.Math_max 1 (JS.Math_min 10 (zoom s * zoomFactor)) in
  if JS.strict_eq newZoom (zoom s) then s else
  let visibleDataPoints := JS.Math_ceil (JS.length (data1 s) / zoom s) in
  let newVisibleDataPoints := JS.Math_ceil (JS.length (data1 s) / newZoom) in
  let currentStartIndex :=
    JS.Math_floor
      (panX s * JS.Math_max 1 (JS.length (data1 s) - visibleDataPoints)) in
  let cursorRelativePosition :=
    (centerX - currentStartIndex) / visibleDataPoints in
  let newStartIndex :=
    JS.Math_max 0
      (JS.Math_min (JS.length (data1 s) - newVisibleDataPoints)
         (centerX - newVisibleDataPoints * cursorRelativePosition)) in
  let maxStartIndex :=
    JS.Math_max 1 (JS.length (data1 s) - newVisibleDataPoints) in
  let newPanX :=
    if JS.gt maxStartIndex 0 then newStartIndex / maxStartIndex else 0 in
  setPanX (JS.Math_max 0 (JS.Math_min 1 newPanX)) (setZoom newZoom s).

Definition handleInteractivePan (deltaX : Q) (s : State) : State :=
  let visibleDataPoints := JS.Math_ceil (JS.length (data1 s) / zoom s) in
  let maxStartIndex := JS.Math_max 0 (JS.length (data1 s) - visibleDataPoints) in
  if JS.le maxStartIndex 0 then s else
  let currentStartIndex := JS.Math_floor (panX s * maxStartIndex) in
  let newStartIndex :=
    JS.Math_max 0 (JS.Math_min maxStartIndex (currentStartIndex + deltaX)) in
  let newPanX := newStartIndex / maxStartIndex in
  setPanX newPanX s.

Definition handleReset (s : State) : State :=
  setCurrentPosition 250 (setPanX (1 # 2) (setZoom 2 s)).

(** The [Remove] button of an annotation card. *)
Definition handleRemove (id : string) (s : State) : State :=
  setAnnotations
    (filter (fun a => negb (String.eqb (Annotation.id a) id))) s.

(** The props [App] passes to its two [LineChart] children. *)
Definition chart1 (s : State) : LineChart.Props :=
  {| LineChart.data := data1 s;
     LineChart.annotations := annotations s;
     LineChart.currentPosition := currentPosition s;
     LineChart.zoom := zoom s;
     LineChart.panX := panX s;
     LineChart.hideXAxis := true;
     LineChart.hideTitle := true;
     LineChart.instructionsPosition := LineChart.hidden |}.

Definition chart2 (s : State) : LineChart.Props :=
  {| LineChart.data := data2 s;
     LineChart.annotations := annotations s;
     LineChart.currentPosition := currentPosition s;
     LineChart.zoom := zoom s;
     LineChart.panX := panX s;
     LineChart.hideXAxis := false;
     LineChart.hideTitle := true;
     LineChart.instructionsPosition := LineChart.bottom |}.

(** Which handler each callback prop is bound to. *)
Definition dispatch (now : N) (s : State) (cb : LineChart.Callback) : State :=
  match cb with
  | LineChart.onAnnotationDrag id value => handleAnnotationDrag id value s
  | LineChart.onCurrentPositionDrag value => handleCurrentPositionDrag value s
  | LineChart.onInteractiveZoom delta centerX => handleInteractiveZoom delta centerX s
  | LineChart.onInteractivePan deltaX => handleInteractivePan deltaX s
  | LineChart.onAddAnnotation => handleAddAnnotation now s
  end.

(** The two [Stats] cards showing the sample under the current position. *)
Definition currentValue1 (s : State) : Q :=
  JS.index_or_zero (data1 s) (currentPosition s).
Definition currentValue2 (s : State) : Q :=
  JS.index_or_zero (data2 s) (currentPosition s).

(** [generateDummyData].  [Math.random] and [Math.sin] are taken as given:
    [random i] is the draw of iteration [i] and [sin] the sine. *)
Section DummyData.

Variable random : nat -> Q.
Variable sin : Q -> Q.

(** The [for] loop with [count] iterations left, at counter [i] and
    running [value]. *)
Fixpoint generateLoop (offset : Q) (count i : nat) (value : Q) : list Q :=
  match count with
  | O => []
  | S count' =>
      let noise := (random i - (1 # 2)) * 5 in
      let trend := sin ((inject_Z (Z.of_nat i) + offset) * (2 # 100)) * 10 in
      let spike := sin ((inject_Z (Z.of_nat i) + offset) * (1 # 10)) * 3 in
      let value1 := value + (noise + trend * (1 # 10) + spike * (1 # 10)) in
      let value2 := JS.Math_max 0 (JS.Math_min 100 value1) in
      JS.toFixed2 value2 :: generateLoop offset count' (S i) value2
  end.

Definition generateDummyData (length : nat) (offset : Q) : list Q :=
  generateLoop offset length 0 (50 + offset).

End DummyData.

(** The state [App] mounts with: the two generated series ([random1] and
    [random2] are the draws of the first and of the second call). *)
Definition mounted (random1 random2 : nat -> Q) (sin : Q -> Q) : State :=
  initial (generateDummyData random1 sin 500 0)
          (generateDummyData random2 sin 500 100).

End App.

(** ** components/Controls.tsx *)

Module Controls.

Record Props : Type := { zoom : Q; panX : Q }.

(** An invocation of one of the callback props. *)
Inductive Callback : Type :=
| onZoomChange (zoom : Q)
| onPanXChange (panX : Q)
| onAddAnnotation
| onReset.

Definition zoomPercentage (p : Props) : Q := JS.Math_round (zoom p * 100).

(** The range inputs hold a number; [value] is what [parseFloat] reads. *)
Definition handleZoomSliderChange (value : Q) : Callback := onZoomChange value.
Definition handlePanChange (value : Q) : Callback := onPanXChange value.

(** [parsed] is what [parseInt] reads from the number box, [None] being
    [NaN]; a [NaN] or a zero falls back to 100. *)
Definition handleZoomInputChange (parsed : option Z) : Callback :=
  let fallback :=
    match parsed with
    | Some n => if (n =? 0)%Z then 100 else inject_Z n
    | None => 100
    end in
  let value := JS.Math_max 100 (JS.Math_min 1000 fallback) in
  onZoomChange (value / 100).

(** The [Zoom Out] and [Zoom In] buttons. *)
Definition clickZoomOut (p : Props) : Callback :=
  onZoomChange (JS.Math_max 1 (zoom p - (25 # 100))).
Definition clickZoomIn (p : Props) : Callback :=
  onZoomChange (JS.Math_min 10 (zoom p + (25 # 100))).

End Controls.

(** ** The page: one [App] state and the local states of its two charts *)

Module Page.

Inductive ChartId : Type := Chart1 | Chart2.

Record State : Type := {
  app : App.State;
  view1 : LineChart.State;
  view2 : LineChart.State
}.

Definition initial (d1 d2 : list Q) : State :=
  {| app := App.initial d1 d2;
     view1 := LineChart.initial; view2 := LineChart.initial |}.

Definition props (t : ChartId) (s : App.State) : LineChart.Props :=
  match t with Chart1 => App.chart1 s | Chart2 => App.chart2 s end.

Definition view (t : ChartId) (s : State) : LineChart.State :=
  match t with Chart1 => view1 s | Chart2 => view2 s end.

(** One user action: a DOM event on one of the charts, together with the
    rendering surface the chart's ref holds at that moment and the clock
    reading, or a click on one of the page's buttons. *)
Inductive Input : Type :=
| OnChart (target : ChartId) (surface : option LineChart.Chart)
    (ev : LineChart.DomEvent) (now : N)
| ClickAddAnnotation (now : N)
| ClickReset
| ClickRemove (id : string).

(** Each action is handled by the closures of the latest render; the
    callbacks it raises reach the [App] handlers in order.  (No action
    raises two callbacks where the second reads a field the first
    writes, so applying them one after the other is what the batched
    state updates amount to.) *)
Definition step (s : State) (i : Input) : State :=
  match i with
  | OnChart t surface ev now =>
      let eff := LineChart.handle (props t (app s)) surface (view t s) ev in
      let app' := fold_left (App.dispatch now) (LineChart.calls eff) (app s) in
      match t with
      | Chart1 => {| app := app'; view1 := LineChart.next eff; view2 := view2 s |}
      | Chart2 => {| app := app'; view1 := view1 s; view2 := LineChart.next eff |}
      end
  | ClickAddAnnotation now =>
      {| app := App.handleAddAnnotation now (app s);
         view1 := view1 s; view2 := view2 s |}
  | ClickReset =>
      {| app := App.handleReset (app s); view1 := view1 s; view2 := view2 s |}
  | ClickRemove id =>
      {| app := App.handleRemove id (app s); view1 := view1 s; view2 := view2 s |}
  end.

Definition run (s : State) (inputs : list Input) : State :=
  fold_left step inputs s.

End Page.

(** ** Vocabulary of the specification *)

Module Spec.

(** [clamp(x, lo, hi)]. *)
Definition clamp (x lo hi : Q) : Q :=
  if JS.lt x lo then lo else if JS.gt x hi then hi else x.

(** A marker is a vertical line bound to a data index: the singleton
    current-position marker or one of the annotations. *)
Record Marker : Type := {
  kind : LineChart.MarkerType;
  marker_id : string;
  index : Q
}.

Definition current_marker (p : LineChart.Props) : Marker :=
  {| kind := LineChart.current; marker_id := "currentPosition";
     index := LineChart.currentPosition p |}.

Definition annotation_marker (a : Annotation.t) : Marker :=
  {| kind := LineChart.annotation; marker_id := Annotation.id a;
     index := Annotation.value a |}.

(** Search order: the current-position marker, then the annotations in
    creation order. *)
Definition markers (p : LineChart.Props) : list Marker :=
  current_marker p :: map annotation_marker (LineChart.annotations p).

(** [|marker.index - dataX| < 10]. *)
Definition within_tolerance (dataX : Q) (m : Marker) : bool :=
  JS.lt (Qabs (index m - dataX)) 10.

Definition drag_target (p : LineChart.Props) (dataX : Q) : option Marker :=
  find (within_tolerance dataX) (markers p).

(** What a drag session records of its target. *)
Definition session_target (d : LineChart.Closest) : Marker :=
  {| kind := LineChart.type d; marker_id := LineChart.id d;
     index := LineChart.position d |}.

(** An index of a sample of a series of length [N]. *)
Definition sample_index (N x : Q) : Prop :=
  JS.is_integer x /\ 0 <= x <= N - 1.

Definition markers_in_range (s : App.State) : Prop :=
  sample_index (JS.length (App.data1 s)) (App.currentPosition s) /\
  Forall (fun a => sample_index (JS.length (App.data1 s)) (Annotation.value a))
         (App.annotations s).

(** Pointer gestures: down, move, up and leave on a chart. *)
Definition pointer_gesture (i : Page.Input) : Prop :=
  match i with
  | Page.OnChart _ _ (LineChart.MouseDown _) _
  | Page.OnChart _ _ (LineChart.MouseMove _) _
  | Page.OnChart _ _ LineChart.MouseUp _
  | Page.OnChart _ _ LineChart.MouseLeave _ => True
  | _ => False
  end.

(** The callbacks a pointer gesture can raise: a marker drag or a pan. *)
Definition drag_or_pan (cb : LineChart.Callback) : Prop :=
  match cb with
  | LineChart.onAnnotationDrag _ _
  | LineChart.onCurrentPositionDrag _
  | LineChart.onInteractivePan _ => True
  | _ => False
  end.

(** A viewport the controllers may store. *)
Definition viewport_valid (s : App.State) : Prop :=
  1 <= App.zoom s <= 10 /\ 0 <= App.panX s <= 1.


(** The gesture state [Idle]: neither a marker drag nor a pan session. *)
Definition Idle (v : LineChart.State) : Prop :=
  LineChart.dragging v = None /\ LineChart.isPanning v = false.

(** Two lower-case hex digits for a channel below 256. *)
Definition hex_char (n : N) : ascii :=
  if (n <? 10)%N then ascii_of_N (48 + n) else ascii_of_N (87 + n).

Definition hex_pair (n : N) : string :=
  String (hex_char (n / 16)) (String (hex_char (n mod 16)) EmptyString).

(** [#rrggbb]. *)
Definition hex_colour (red green blue : N) : string :=
  String "#"%char (hex_pair red ++ hex_pair green ++ hex_pair blue)%string.

(** Ids as [handleAddAnnotation] makes them. *)
Definition app_made_id (id : string) : Prop :=
  exists now : N, id = ("annotation-" ++ JS.decimal now)%string.

Definition within (tolerance dataX index : Q) : Prop :=
  Qabs (index - dataX) < tolerance.

(** Adding one annotation per clock reading, in order. *)
Definition add_all (nows : list N) (s : App.State) : App.State :=
  fold_left (fun acc now => App.handleAddAnnotation now acc) nows s.

(** The value a drag to [value] stores: rounded, then clamped to the
    series. *)
Definition drag_target_value (s : App.State) (value : Q) : Q :=
  JS.Math_max 0 (JS.Math_min (JS.length (App.data1 s) - 1) (JS.Math_round value)).

(** The centre of the window [App] computes when it adds an annotation. *)
Definition centre (s : App.State) : Q :=
  LineChart.startIndex (App.chart1 s)
  + JS.Math_floor (LineChart.visibleDataPoints (App.chart1 s) / 2).

(** The annotation added as number [k] (counting from 0) at clock reading
    [now], and the run of annotations added from number [k] on. *)
Definition new_annotation (s : App.State) (k : nat) (now : N) : Annotation.t :=
  {| Annotation.id := "annotation-" ++ JS.decimal now;
     Annotation.value := centre s;
     Annotation.color := nth (k mod 8) App.ANNOTATION_COLORS EmptyString |}.

Fixpoint made_from (s : App.State) (k : nat) (nows : list N) : list Annotation.t :=
  match nows with
  | [] => []
  | now :: rest => new_annotation s k now :: made_from s (S k) rest
  end.

(** The chart the event did not land on. *)
Definition other (t : Page.ChartId) : Page.ChartId :=
  match t with Page.Chart1 => Page.Chart2 | Page.Chart2 => Page.Chart1 end.

(** A sample as [generateDummyData] pushes it: between 0 and 100, with at
    most two decimals. *)
Definition generated_sample (x : Q) : Prop :=
  0 <= x <= 100 /\ JS.is_integer (x * 100).

Definition ids_app_made (s : App.State) : Prop :=
  Forall (fun a => app_made_id (Annotation.id a)) (App.annotations s).

(** An annotation id the page can hold: made by [handleAddAnnotation],
    hence neither the current-position key nor empty. *)
Definition usable_id (id : string) : Prop :=
  app_made_id id /\ id <> "currentPosition"%string /\ id <> EmptyString.

End Spec.

(** ** Sample data *)

Module Sample.

(** Two series of the length the page generates (500 samples). *)
Definition flat_series : list Q := repeat 0 500.
Definition rising_series : list Q :=
  map (fun k => inject_Z (Z.of_nat k)) (seq 0 500).

Definition page : Page.State := Page.initial flat_series rising_series.

(** The initial [App] state moved to zoom [z] and pan [pan]. *)
Definition zoomed_to (z : Q) (pan : Q) : App.State :=
  App.setPanX pan (App.setZoom z (App.initial flat_series rising_series)).

(** A surface whose x scale maps pixel [x] to data coordinate [x], on a
    plotted area 500 pixels wide. *)
Definition pixel_chart : LineChart.Chart :=
  {| LineChart.rect_left := 0;
     LineChart.getValueForPixel := fun x => Some x;
     LineChart.chartArea :=
       Some {| LineChart.left := 0; LineChart.right := 500 |} |}.

Definition on_chart1 (ev : LineChart.DomEvent) : Page.Input :=
  Page.OnChart Page.Chart1 (Some pixel_chart) ev 0.

Definition down_at (x : Q) : Page.Input :=
  on_chart1 (LineChart.MouseDown (LineChart.MouseEvent.mk x 0)).
Definition move_to (x : Q) : Page.Input :=
  on_chart1 (LineChart.MouseMove (LineChart.MouseEvent.mk x 0)).
Definition up : Page.Input := on_chart1 LineChart.MouseUp.
Definition leave : Page.Input := on_chart1 LineChart.MouseLeave.

End Sample.

(** * Properties *)

(** ** Arithmetic of the numeric primitives *)

(** Splits every [Qmax]/[Qmin] of the goal and of the hypotheses into its
    two cases and leaves linear arithmetic. *)
Ltac split_minmax_with a b spec :=
  let H := fresh "Hm" in
  let Hc := fresh "Hc" in
  let m := fresh "m" in
  let E := fresh "E" in
  destruct (spec a b) as [[Hc H]|[Hc H]];
  match type of H with
  | ?t == _ => remember t as m eqn:E in *; clear E
  end.

Ltac split_handler :=
  repeat match goal with
    | |- context [match ?x with _ => _ end] => destruct x
    end.

Ltac split_minmax :=
  repeat match goal with
    | |- context [Qmax ?a ?b] => split_minmax_with a b Q.max_spec
    | |- context [Qmin ?a ?b] => split_minmax_with a b Q.min_spec
    | _ : context [Qmax ?a ?b] |- _ => split_minmax_with a b Q.max_spec
    | _ : context [Qmin ?a ?b] |- _ => split_minmax_with a b Q.min_spec
    end.

Lemma Qle_bool_false (x y : Q) : Qle_bool x y = false <-> y < x.
Proof.
  split; intro H.
  - apply Qnot_le_lt. intro Hle. apply Qle_bool_iff in Hle. congruence.
  - destruct (Qle_bool x y) eqn:E; [|reflexivity].
    apply Qle_bool_iff in E. lra.
Qed.

Lemma JS_gt_true (x y : Q) : JS.gt x y = true <-> y < x.
Proof.
  unfold JS.gt. rewrite negb_true_iff. apply Qle_bool_false.
Qed.

Lemma JS_gt_false (x y : Q) : JS.gt x y = false <-> x <= y.
Proof.
  unfold JS.gt. rewrite negb_false_iff. apply Qle_bool_iff.
Qed.

Lemma JS_lt_true (x y : Q) : JS.lt x y = true <-> x < y.
Proof.
  unfold JS.lt. rewrite negb_true_iff. apply Qle_bool_false.
Qed.

Lemma JS_lt_false (x y : Q) : JS.lt x y = false <-> y <= x.
Proof.
  unfold JS.lt. rewrite negb_false_iff. apply Qle_bool_iff.
Qed.

Lemma Qeq_bool_false (x y : Q) : Qeq_bool x y = false <-> ~ x == y.
Proof.
  split; intro H.
  - intro E. apply Qeq_bool_iff in E. congruence.
  - destruct (Qeq_bool x y) eqn:E; [|reflexivity].
    apply Qeq_bool_iff in E. contradiction.
Qed.

(** The source's [Math.max(lo, Math.min(hi, x))] is [clamp(x, lo, hi)]. *)
Lemma max_min_is_clamp (x lo hi : Q) :
  lo <= hi ->
  JS.Math_max lo (JS.Math_min hi x) == Spec.clamp x lo hi.
Proof.
  intro Hle. unfold Spec.clamp, JS.Math_max, JS.Math_min.
  destruct (JS.lt x lo) eqn:E1.
  - apply JS_lt_true in E1. split_minmax; lra.
  - apply JS_lt_false in E1. destruct (JS.gt x hi) eqn:E2.
    + apply JS_gt_true in E2. split_minmax; lra.
    + apply JS_gt_false in E2. split_minmax; lra.
Qed.

Lemma clamp_bounds (x lo hi : Q) :
  lo <= hi -> lo <= Spec.clamp x lo hi <= hi.
Proof.
  intro Hle. unfold Spec.clamp.
  destruct (JS.lt x lo) eqn:E1.
  - lra.
  - apply JS_lt_false in E1. destruct (JS.gt x hi) eqn:E2.
    + lra.
    + apply JS_gt_false in E2. lra.
Qed.

Lemma length_nonneg {A} (l : list A) : 0 <= JS.length l.
Proof.
  unfold JS.length. change 0 with (inject_Z 0). rewrite <- Zle_Qle. lia.
Qed.

Lemma length_pos {A} (l : list A) : (1 <= List.length l)%nat -> 1 <= JS.length l.
Proof.
  intro H. unfold JS.length. change 1 with (inject_Z 1). rewrite <- Zle_Qle. lia.
Qed.

(** [ceil(N / zoom)] for a non-empty series and a zoom of at least one. *)
Lemma ceil_div_bounds (N z : Q) :
  1 <= N -> JS.is_integer N -> 1 <= z ->
  1 <= JS.Math_ceil (N / z) <= N.
Proof.
  intros HN Hint Hz. unfold JS.Math_ceil.
  assert (Hpos : 0 < N / z).
  { apply Qlt_shift_div_l; lra. }
  assert (Hle : N / z <= N).
  { apply Qle_shift_div_r; [lra|].
    assert (0 <= N * (z - 1)) by (apply Qmult_le_0_compat; lra). lra. }
  split.
  - pose proof (Qle_ceiling (N / z)) as Hc.
    assert (H0 : (0 < Qceiling (N / z))%Z).
    { rewrite Zlt_Qlt. change (inject_Z 0) with 0. lra. }
    change 1 with (inject_Z 1). rewrite <- Zle_Qle. lia.
  - unfold JS.is_integer in Hint.
    apply Qle_trans with (inject_Z (Qfloor N)); [|lra].
    rewrite <- Zle_Qle.
    rewrite <- (Qceiling_Z (Qfloor N)).
    apply Qceiling_resp_le. lra.
Qed.

Lemma length_is_integer {A} (l : list A) : JS.is_integer (JS.length l).
Proof.
  unfold JS.is_integer, JS.length. rewrite Qfloor_Z. reflexivity.
Qed.

Lemma floor_scaled_bounds (pan M : Q) :
  0 <= pan <= 1 -> 0 <= M -> JS.is_integer M ->
  0 <= JS.Math_floor (pan * M) <= M.
Proof.
  intros Hp HM Hint. unfold JS.Math_floor. split.
  - change 0 with (inject_Z 0). rewrite <- Zle_Qle.
    rewrite <- (Qfloor_Z 0). apply Qfloor_resp_le. change (inject_Z 0) with 0.
    apply Qmult_le_0_compat; lra.
  - unfold JS.is_integer in Hint.
    apply Qle_trans with (inject_Z (Qfloor M)); [|lra].
    rewrite <- Zle_Qle.
    rewrite <- (Qfloor_Z (Qfloor M)). apply Qfloor_resp_le.
    assert (0 <= (1 - pan) * M) by (apply Qmult_le_0_compat; lra). lra.
Qed.

Lemma is_integer_inject_Z (k : Z) : JS.is_integer (inject_Z k).
Proof.
  unfold JS.is_integer. rewrite Qfloor_Z. reflexivity.
Qed.

Lemma is_integer_eq (x : Q) (k : Z) : x == inject_Z k -> JS.is_integer x.
Proof.
  intro H. unfold JS.is_integer. rewrite (Qfloor_comp _ _ H), Qfloor_Z.
  symmetry. exact H.
Qed.

Lemma is_integer_sub (x y : Q) :
  JS.is_integer x -> JS.is_integer y -> JS.is_integer (x - y).
Proof.
  unfold JS.is_integer. intros Hx Hy.
  apply (is_integer_eq _ (Qfloor x - Qfloor y)).
  unfold Z.sub. rewrite inject_Z_plus, inject_Z_opp. lra.
Qed.

(** ** The derived window *)

(** C6. For a non-empty series, a zoom factor in [1,10] and a pan fraction
    in [0,1], the derived visible count lies in [1, N] and the derived start
    index lies in [0, N - visibleCount]; it is 0 once the whole series is
    visible. *)
Theorem viewport_bounds (p : LineChart.Props) :
  (1 <= List.length (LineChart.data p))%nat ->
  1 <= LineChart.zoom p <= 10 ->
  0 <= LineChart.panX p <= 1 ->
  let N := JS.length (LineChart.data p) in
  1 <= LineChart.visibleDataPoints p <= N /\
  0 <= LineChart.startIndex p <= N - LineChart.visibleDataPoints p /\
  (N <= LineChart.visibleDataPoints p -> LineChart.startIndex p == 0).
Proof.
  intros Hlen Hz Hp N.
  assert (Hv : 1 <= LineChart.visibleDataPoints p <= N).
  { apply ceil_div_bounds.
    - apply length_pos, Hlen.
    - apply length_is_integer.
    - apply Hz. }
  assert (Hs : 0 <= LineChart.startIndex p <= N - LineChart.visibleDataPoints p).
  { apply floor_scaled_bounds.
    - exact Hp.
    - fold N. lra.
    - apply is_integer_sub.
      + apply length_is_integer.
      + apply is_integer_inject_Z. }
  repeat split; try apply Hv; try apply Hs.
  intro Hall. destruct Hs as [Hs0 Hs1]. lra.
Qed.

Lemma viewport_bounds_witness :
  let p := App.chart1 (App.initial Sample.flat_series Sample.rising_series) in
  1 <= LineChart.visibleDataPoints p <= 500 /\
  0 <= LineChart.startIndex p <= 500 - LineChart.visibleDataPoints p /\
  (500 <= LineChart.visibleDataPoints p -> LineChart.startIndex p == 0).
Proof.
  apply (viewport_bounds (App.chart1 (App.initial Sample.flat_series Sample.rising_series))).
  - vm_compute. lia.
  - split; vm_compute; discriminate.
  - split; vm_compute; discriminate.
Defined.

Lemma derived_window_compat (p q : LineChart.Props) :
  List.length (LineChart.data p) = List.length (LineChart.data q) ->
  LineChart.zoom p == LineChart.zoom q ->
  LineChart.panX p == LineChart.panX q ->
  LineChart.visibleDataPoints p = LineChart.visibleDataPoints q /\
  LineChart.startIndex p = LineChart.startIndex q /\
  LineChart.endIndex p = LineChart.endIndex q.
Proof.
  intros Hlen Hz Hp.
  assert (Hv : LineChart.visibleDataPoints p = LineChart.visibleDataPoints q).
  { unfold LineChart.visibleDataPoints, JS.Math_ceil, JS.length.
    rewrite Hlen. f_equal. apply Qceiling_comp. rewrite Hz. reflexivity. }
  assert (Hs : LineChart.startIndex p = LineChart.startIndex q).
  { unfold LineChart.startIndex, JS.Math_floor.
    rewrite Hv. unfold JS.length. rewrite Hlen. f_equal.
    apply Qfloor_comp. rewrite Hp. reflexivity. }
  repeat split; try assumption.
  unfold LineChart.endIndex. rewrite Hs, Hv. reflexivity.
Qed.

(** C9. Two chart views that are given Qeq-identical zoom factor and pan
    fraction and series of the same length derive the same start and end
    index, whatever their series' samples and display flags are. *)
Theorem window_is_shared (p q : LineChart.Props) :
  List.length (LineChart.data p) = List.length (LineChart.data q) ->
  LineChart.zoom p == LineChart.zoom q ->
  LineChart.panX p == LineChart.panX q ->
  LineChart.startIndex p = LineChart.startIndex q /\
  LineChart.endIndex p = LineChart.endIndex q.
Proof.
  intros Hlen Hz Hp.
  destruct (derived_window_compat p q Hlen Hz Hp) as (_ & Hs & He).
  split; assumption.
Qed.

Lemma window_is_shared_witness :
  let s := App.initial Sample.flat_series Sample.rising_series in
  LineChart.startIndex (App.chart1 s) = LineChart.startIndex (App.chart2 s) /\
  LineChart.endIndex (App.chart1 s) = LineChart.endIndex (App.chart2 s).
Proof.
  apply (window_is_shared
           (App.chart1 (App.initial Sample.flat_series Sample.rising_series))
           (App.chart2 (App.initial Sample.flat_series Sample.rising_series))).
  - vm_compute. reflexivity.
  - reflexivity.
  - reflexivity.
Defined.

(** ** The pan controller *)

(** C4. With visibleCount = ceil(N / zoom) and maxStart = max(0, N -
    visibleCount): when maxStart is 0 the pan handler returns the state as
    it is; otherwise it writes only panX, the new value being
    clamp(floor(pan * maxStart) + indexDelta, 0, maxStart) / maxStart,
    which lies in [0,1]. *)
Theorem pan_contract (s : App.State) (indexDelta : Q) :
  1 <= App.zoom s <= 10 ->
  0 <= App.panX s <= 1 ->
  let N := JS.length (App.data1 s) in
  let visibleCount := JS.Math_ceil (N / App.zoom s) in
  let maxStart := JS.Math_max 0 (N - visibleCount) in
  let s' := App.handleInteractivePan indexDelta s in
  (maxStart == 0 -> s' = s) /\
  (~ maxStart == 0 ->
   App.panX s' ==
     Spec.clamp (JS.Math_floor (App.panX s * maxStart) + indexDelta) 0 maxStart
       / maxStart /\
   0 <= App.panX s' <= 1 /\
   s' = App.setPanX (App.panX s') s).
Proof.
  intros Hz Hp N visibleCount maxStart s'.
  assert (Hge : 0 <= maxStart) by apply Q.le_max_l.
  subst s'. unfold App.handleInteractivePan.
  fold N. fold visibleCount. fold maxStart.
  destruct (JS.le maxStart 0) eqn:E; unfold JS.le in E.
  - apply Qle_bool_iff in E. split; [reflexivity|].
    intro Hne. exfalso. apply Hne. lra.
  - apply Qle_bool_false in E. split; [intro H0; lra|].
    intros _. cbn [App.panX App.setPanX].
    set (x := JS.Math_floor (App.panX s * maxStart) + indexDelta).
    pose proof (max_min_is_clamp x 0 maxStart Hge) as Hc.
    pose proof (clamp_bounds x 0 maxStart Hge) as [Hb0 Hb1].
    repeat split.
    + rewrite Hc. reflexivity.
    + rewrite Hc. apply Qle_shift_div_l; lra.
    + rewrite Hc. apply Qle_shift_div_r; lra.
Qed.

Lemma pan_contract_witness :
  let s := App.initial Sample.flat_series Sample.rising_series in
  let s' := App.handleInteractivePan (7 # 2) s in
  (JS.Math_max 0 (500 - JS.Math_ceil (500 / 2)) == 0 -> s' = s) /\
  (~ JS.Math_max 0 (500 - JS.Math_ceil (500 / 2)) == 0 ->
   App.panX s' ==
     Spec.clamp (JS.Math_floor ((1 # 2) * JS.Math_max 0 (500 - JS.Math_ceil (500 / 2)))
                 + (7 # 2))
       0 (JS.Math_max 0 (500 - JS.Math_ceil (500 / 2)))
       / JS.Math_max 0 (500 - JS.Math_ceil (500 / 2)) /\
   0 <= App.panX s' <= 1 /\
   s' = App.setPanX (App.panX s') s).
Proof.
  apply (pan_contract (App.initial Sample.flat_series Sample.rising_series) (7 # 2)).
  - split; vm_compute; discriminate.
  - split; vm_compute; discriminate.
Defined.

(** ** The zoom controller *)

(** C5. A zoom-in request (positive delta) at zoom factor 10 and a zoom-out
    request (non-positive delta) at zoom factor 1 return the state itself:
    zoom and pan are unchanged and nothing is written. *)
Theorem zoom_noop_at_bounds (s : App.State) (delta centerX : Q) :
  (App.zoom s == 10 -> 0 < delta ->
   App.handleInteractiveZoom delta centerX s = s) /\
  (App.zoom s == 1 -> delta <= 0 ->
   App.handleInteractiveZoom delta centerX s = s).
Proof.
  split; intros Hz Hd; unfold App.handleInteractiveZoom.
  - apply JS_gt_true in Hd. rewrite Hd.
    match goal with
    | |- (if JS.strict_eq ?a ?b then _ else _) = _ =>
        assert (E : JS.strict_eq a b = true)
    end.
    { apply Qeq_bool_iff. unfold JS.Math_max, JS.Math_min.
      split_minmax; lra. }
    rewrite E. reflexivity.
  - apply JS_gt_false in Hd. rewrite Hd.
    match goal with
    | |- (if JS.strict_eq ?a ?b then _ else _) = _ =>
        assert (E : JS.strict_eq a b = true)
    end.
    { apply Qeq_bool_iff. unfold JS.Math_max, JS.Math_min.
      split_minmax; lra. }
    rewrite E. reflexivity.
Qed.

Lemma zoom_noop_at_bounds_witness :
  App.handleInteractiveZoom 120 40 (Sample.zoomed_to 10 (3 # 10)) = Sample.zoomed_to 10 (3 # 10) /\
  App.handleInteractiveZoom (-120) 40 (Sample.zoomed_to 1 (3 # 10)) = Sample.zoomed_to 1 (3 # 10).
Proof.
  split.
  - apply (proj1 (zoom_noop_at_bounds (Sample.zoomed_to 10 (3 # 10)) 120 40)).
    + reflexivity.
    + reflexivity.
  - apply (proj2 (zoom_noop_at_bounds (Sample.zoomed_to 1 (3 # 10)) (-120) 40)).
    + reflexivity.
    + vm_compute. discriminate.
Defined.

#[local] Instance Math_floor_compat : Proper (Qeq ==> Qeq) JS.Math_floor.
Proof.
  intros x y H. unfold JS.Math_floor. rewrite (Qfloor_comp _ _ H). reflexivity.
Qed.

#[local] Instance Math_ceil_compat : Proper (Qeq ==> Qeq) JS.Math_ceil.
Proof.
  intros x y H. unfold JS.Math_ceil. rewrite (Qceiling_comp _ _ H). reflexivity.
Qed.

#[local] Instance Math_max_compat : Proper (Qeq ==> Qeq ==> Qeq) JS.Math_max.
Proof.
  intros x y H x' y' H'. unfold JS.Math_max. split_minmax; lra.
Qed.

#[local] Instance Math_min_compat : Proper (Qeq ==> Qeq ==> Qeq) JS.Math_min.
Proof.
  intros x y H x' y' H'. unfold JS.Math_min. split_minmax; lra.
Qed.

Lemma strict_eq_compat (x y x' y' : Q) :
  x == y -> x' == y' -> JS.strict_eq x x' = JS.strict_eq y y'.
Proof.
  intros H H'. unfold JS.strict_eq.
  destruct (Qeq_bool y y') eqn:E.
  - apply Qeq_bool_iff. apply Qeq_bool_iff in E. lra.
  - apply Qeq_bool_false. apply Qeq_bool_false in E. intro. apply E. lra.
Qed.

Lemma max_one_positive (x : Q) : JS.gt (JS.Math_max 1 x) 0 = true.
Proof.
  apply JS_gt_true. unfold JS.Math_max. split_minmax; lra.
Qed.

(** The zoom handler only looks at the sign of the wheel delta. *)
Lemma zoom_in_any_delta (delta centerX : Q) (s : App.State) :
  0 < delta ->
  App.handleInteractiveZoom delta centerX s = App.handleInteractiveZoom 1 centerX s.
Proof.
  intro Hd. unfold App.handleInteractiveZoom.
  apply JS_gt_true in Hd. rewrite Hd. reflexivity.
Qed.

(** The viewport the zoom handler produces depends on the state only
    through the length of the series and the values of zoom and pan. *)
Lemma zoom_result_compat (delta centerX : Q) (s1 s2 : App.State) :
  List.length (App.data1 s1) = List.length (App.data1 s2) ->
  App.zoom s1 == App.zoom s2 ->
  App.panX s1 == App.panX s2 ->
  App.zoom (App.handleInteractiveZoom delta centerX s1) ==
    App.zoom (App.handleInteractiveZoom delta centerX s2) /\
  App.panX (App.handleInteractiveZoom delta centerX s1) ==
    App.panX (App.handleInteractiveZoom delta centerX s2).
Proof.
  intros Hlen Hz Hp. unfold App.handleInteractiveZoom.
  assert (HN : JS.length (App.data1 s1) = JS.length (App.data1 s2)).
  { unfold JS.length. rewrite Hlen. reflexivity. }
  rewrite HN.
  set (f := if JS.gt delta 0 then 12 # 10 else 8 # 10).
  assert (Hnz : JS.Math_max 1 (JS.Math_min 10 (App.zoom s1 * f)) ==
                JS.Math_max 1 (JS.Math_min 10 (App.zoom s2 * f))).
  { rewrite Hz. reflexivity. }
  rewrite (strict_eq_compat _ _ _ _ Hnz Hz).
  destruct (JS.strict_eq _ (App.zoom s2)).
  - split; assumption.
  - cbn [App.zoom App.panX App.setPanX App.setZoom].
    split; [exact Hnz|].
    rewrite !max_one_positive.
    rewrite Hnz, Hz, Hp. reflexivity.
Qed.

Lemma zoom_keeps_data (delta centerX : Q) (s : App.State) :
  App.data1 (App.handleInteractiveZoom delta centerX s) = App.data1 s /\
  App.data2 (App.handleInteractiveZoom delta centerX s) = App.data2 s.
Proof.
  unfold App.handleInteractiveZoom.
  destruct (JS.strict_eq _ (App.zoom s)); split; reflexivity.
Qed.

(** C1. With N = 500, zoom 2 and pan 0.5 the window is [125, 375); after a
    zoom-in request at cursor data index 250 each chart derives a window in
    which index 250 sits within one index of the relative position it had
    before. *)
Theorem zoom_keeps_cursor_anchored (s : App.State) (delta : Q) (t : Page.ChartId) :
  List.length (App.data1 s) = 500%nat ->
  List.length (App.data2 s) = 500%nat ->
  App.zoom s == 2 ->
  App.panX s == 1 # 2 ->
  0 < delta ->
  let before := Page.props t s in
  let after := Page.props t (App.handleInteractiveZoom delta 250 s) in
  let relative := (250 - LineChart.startIndex before)
                    / LineChart.visibleDataPoints before in
  LineChart.startIndex before == 125 /\
  LineChart.endIndex before == 375 /\
  Qabs ((250 - LineChart.startIndex after) / LineChart.visibleDataPoints after
        - relative)
    * LineChart.visibleDataPoints after <= 1.
Proof.
  intros H1 H2 Hz Hp Hd before after relative.
  set (s0 := App.setPanX (1 # 2) (App.setZoom 2 (App.initial Sample.flat_series Sample.flat_series))).
  assert (Hb : LineChart.visibleDataPoints before
                 = LineChart.visibleDataPoints (Page.props t s0) /\
               LineChart.startIndex before = LineChart.startIndex (Page.props t s0) /\
               LineChart.endIndex before = LineChart.endIndex (Page.props t s0)).
  { apply derived_window_compat; subst before; destruct t; cbn; assumption. }
  destruct (zoom_result_compat 1 250 s s0) as [Hz' Hp'];
    [exact H1 | exact Hz | exact Hp |].
  assert (Ha : LineChart.visibleDataPoints after
                 = LineChart.visibleDataPoints
                     (Page.props t (App.handleInteractiveZoom 1 250 s0)) /\
               LineChart.startIndex after
                 = LineChart.startIndex
                     (Page.props t (App.handleInteractiveZoom 1 250 s0)) /\
               LineChart.endIndex after
                 = LineChart.endIndex
                     (Page.props t (App.handleInteractiveZoom 1 250 s0))).
  { subst after. rewrite (zoom_in_any_delta delta 250 s Hd).
    apply derived_window_compat.
    - destruct t; cbn [Page.props App.chart1 App.chart2 LineChart.data].
      + rewrite !(proj1 (zoom_keeps_data _ _ _)), H1. reflexivity.
      + rewrite !(proj2 (zoom_keeps_data _ _ _)), H2. reflexivity.
    - destruct t; exact Hz'.
    - destruct t; exact Hp'. }
  destruct Hb as (Hbv & Hbs & Hbe). destruct Ha as (Hav & Has & _).
  subst relative. rewrite Hbv, Hbs, Hbe, Hav, Has.
  destruct t; vm_compute; repeat split; discriminate.
Qed.

Lemma zoom_keeps_cursor_anchored_witness :
  let s := App.initial Sample.flat_series Sample.rising_series in
  let before := App.chart2 s in
  let after := App.chart2 (App.handleInteractiveZoom 120 250 s) in
  let relative := (250 - LineChart.startIndex before)
                    / LineChart.visibleDataPoints before in
  LineChart.startIndex before == 125 /\
  LineChart.endIndex before == 375 /\
  Qabs ((250 - LineChart.startIndex after) / LineChart.visibleDataPoints after
        - relative)
    * LineChart.visibleDataPoints after <= 1.
Proof.
  apply (zoom_keeps_cursor_anchored
           (App.initial Sample.flat_series Sample.rising_series) 120 Page.Chart2).
  - vm_compute. reflexivity.
  - vm_compute. reflexivity.
  - reflexivity.
  - reflexivity.
  - reflexivity.
Defined.

(** ** Annotations *)

Lemma palette_size : List.length App.ANNOTATION_COLORS = 8%nat.
Proof. reflexivity. Qed.

(** C8. Adding an annotation appends one annotation whose value is the
    centre of the current window, startIndex + floor(visibleCount / 2)
    (150 for startIndex 100 and visibleCount 100), and whose colour is the
    palette entry at index k mod 8, k being the number of annotations
    before the addition. *)
Theorem add_annotation_center_and_color (now : N) (s : App.State) :
  let p := App.chart1 s in
  let k := List.length (App.annotations s) in
  exists a : Annotation.t,
    App.annotations (App.handleAddAnnotation now s) = App.annotations s ++ [a] /\
    Annotation.value a =
      LineChart.startIndex p + JS.Math_floor (LineChart.visibleDataPoints p / 2) /\
    nth_error App.ANNOTATION_COLORS (k mod 8) = Some (Annotation.color a) /\
    (LineChart.startIndex p == 100 -> LineChart.visibleDataPoints p == 100 ->
     Annotation.value a == 150).
Proof.
  intros p k.
  eexists. split; [reflexivity|]. cbn [Annotation.value Annotation.color].
  split; [reflexivity|]. split.
  - rewrite palette_size. fold k.
    apply nth_error_nth'. rewrite palette_size.
    apply Nat.mod_upper_bound. discriminate.
  - intros Hs Hv.
    change (LineChart.startIndex p
            + JS.Math_floor (LineChart.visibleDataPoints p / 2) == 150).
    rewrite Hs, Hv. reflexivity.
Qed.

Lemma add_annotation_center_and_color_witness :
  let s := Sample.zoomed_to 5 (1 # 4) in
  exists a : Annotation.t,
    App.annotations (App.handleAddAnnotation 1700000000000 s) = [a] /\
    Annotation.value a == 150 /\
    Annotation.color a = "#10B981"%string.
Proof.
  destruct (add_annotation_center_and_color 1700000000000 (Sample.zoomed_to 5 (1 # 4)))
    as (a & Happ & Hval & Hcol & Hcentre).
  exists a. split; [exact Happ|]. split.
  - apply Hcentre; reflexivity.
  - cbn in Hcol. injection Hcol as Hc. symmetry. exact Hc.
Defined.

(** C10. Reset writes zoom, panX and currentPosition only: the annotations
    list (elements, order, ids, values and colours) and the two series are
    what they were. *)
Theorem reset_keeps_annotations (s : App.State) :
  App.handleReset s =
    {| App.data1 := App.data1 s; App.data2 := App.data2 s;
       App.annotations := App.annotations s;
       App.currentPosition := 250; App.zoom := 2; App.panX := 1 # 2 |} /\
  App.annotations (App.handleReset s) = App.annotations s.
Proof.
  split; reflexivity.
Qed.

(** ** Pointer-down: choosing the drag target *)

Lemma closestAmong_is_find (data : list Q) (dataX : Q) (l : list Annotation.t) :
  forall index : nat,
    option_map Spec.session_target (LineChart.closestAmong data dataX index l)
    = find (Spec.within_tolerance dataX) (map Spec.annotation_marker l).
Proof.
  induction l as [|a rest IH]; intro index; cbn [LineChart.closestAmong map find].
  - reflexivity.
  - unfold Spec.within_tolerance at 1. cbn [Spec.index Spec.annotation_marker].
    unfold JS.Math_abs.
    destruct (JS.lt (Qabs (Annotation.value a - dataX)) 10).
    + reflexivity.
    + apply IH.
Qed.

Lemma getClosestAnnotation_is_drag_target
    (p : LineChart.Props) (c : LineChart.Chart) (x dataX : Q) :
  LineChart.getValueForPixel c x = Some dataX ->
  option_map Spec.session_target (LineChart.getClosestAnnotation p (Some c) x)
  = Spec.drag_target p dataX.
Proof.
  intro Hx. unfold LineChart.getClosestAnnotation, Spec.drag_target, Spec.markers.
  rewrite Hx. cbn [find]. unfold Spec.within_tolerance at 1.
  cbn [Spec.index Spec.current_marker]. unfold JS.Math_abs.
  destruct (JS.lt (Qabs (LineChart.currentPosition p - dataX)) 10).
  - reflexivity.
  - apply closestAmong_is_find.
Qed.

(** C7. On a pointer-down whose pixel resolves to data coordinate dataX,
    the markers are searched in the order current-position marker, then
    annotations in creation order; the first one with |index - dataX| < 10
    becomes the drag target and no pan session is started; when there is
    none, no drag session is started and a pan session begins at the
    pointer's pixel X.  No callback is raised either way. *)
Theorem pointer_down_selects_first_marker
    (p : LineChart.Props) (c : LineChart.Chart) (v : LineChart.State)
    (event : LineChart.MouseEvent.t) (dataX : Q) :
  LineChart.getValueForPixel c
    (LineChart.MouseEvent.clientX event - LineChart.rect_left c) = Some dataX ->
  let eff := LineChart.handle p (Some c) v (LineChart.MouseDown event) in
  LineChart.calls eff = [] /\
  match Spec.drag_target p dataX with
  | Some m =>
      option_map Spec.session_target (LineChart.dragging (LineChart.next eff))
        = Some m /\
      LineChart.isPanning (LineChart.next eff) = LineChart.isPanning v /\
      LineChart.panStartX (LineChart.next eff) = LineChart.panStartX v
  | None =>
      LineChart.dragging (LineChart.next eff) = LineChart.dragging v /\
      LineChart.isPanning (LineChart.next eff) = true /\
      LineChart.panStartX (LineChart.next eff) = LineChart.MouseEvent.clientX event
  end.
Proof.
  intros Hx eff. subst eff.
  rewrite <- (getClosestAnnotation_is_drag_target p c _ dataX Hx).
  unfold LineChart.handle, LineChart.handleCombinedMouseDown,
    LineChart.handlePanStart, LineChart.handleMouseDown.
  destruct (LineChart.getClosestAnnotation p (Some c) _) as [closest|];
    cbn; repeat split; reflexivity.
Qed.

Lemma pointer_down_selects_first_marker_witness :
  let p := App.chart1 (App.handleAddAnnotation 1700000000000
                         (App.initial Sample.flat_series Sample.rising_series)) in
  let near := LineChart.handle p (Some Sample.pixel_chart) LineChart.initial
                (LineChart.MouseDown (LineChart.MouseEvent.mk 255 0)) in
  let far := LineChart.handle p (Some Sample.pixel_chart) LineChart.initial
               (LineChart.MouseDown (LineChart.MouseEvent.mk 100 0)) in
  option_map Spec.session_target (LineChart.dragging (LineChart.next near))
    = Some (Spec.current_marker p) /\
  LineChart.isPanning (LineChart.next near) = false /\
  LineChart.dragging (LineChart.next far) = None /\
  LineChart.isPanning (LineChart.next far) = true /\
  LineChart.panStartX (LineChart.next far) = 100.
Proof.
  pose proof (pointer_down_selects_first_marker
                (App.chart1 (App.handleAddAnnotation 1700000000000
                   (App.initial Sample.flat_series Sample.rising_series)))
                Sample.pixel_chart LineChart.initial
                (LineChart.MouseEvent.mk 255 0) (255 - 0) eq_refl) as [_ Hnear].
  pose proof (pointer_down_selects_first_marker
                (App.chart1 (App.handleAddAnnotation 1700000000000
                   (App.initial Sample.flat_series Sample.rising_series)))
                Sample.pixel_chart LineChart.initial
                (LineChart.MouseEvent.mk 100 0) (100 - 0) eq_refl) as [_ Hfar].
  cbn in Hnear, Hfar.
  destruct Hnear as (Hn1 & Hn2 & _). destruct Hfar as (Hf1 & Hf2 & Hf3).
  repeat split; assumption.
Defined.

(** ** Marker updates stay inside the series *)

Lemma round_clamp_is_sample_index (N x : Q) :
  1 <= N -> JS.is_integer N ->
  Spec.sample_index N (JS.Math_max 0 (JS.Math_min (N - 1) (JS.Math_round x))).
Proof.
  intros HN Hint. split.
  - assert (H1 : JS.is_integer (N - 1)).
    { apply is_integer_sub; [exact Hint | apply (is_integer_inject_Z 1)]. }
    assert (Hr : JS.is_integer (JS.Math_round x)) by apply is_integer_inject_Z.
    unfold JS.is_integer in *. unfold JS.Math_max, JS.Math_min.
    destruct (Q.max_spec 0 (Qmin (N - 1) (JS.Math_round x))) as [[_ E]|[_ E]];
      rewrite (Qfloor_comp _ _ E), E; [|reflexivity].
    destruct (Q.min_spec (N - 1) (JS.Math_round x)) as [[_ E']|[_ E']];
      rewrite (Qfloor_comp _ _ E'), E'; assumption.
  - unfold JS.Math_max, JS.Math_min. split_minmax; lra.
Qed.

Lemma current_drag_keeps_range (value : Q) (s : App.State) :
  (1 <= List.length (App.data1 s))%nat ->
  Spec.markers_in_range s ->
  Spec.markers_in_range (App.handleCurrentPositionDrag value s).
Proof.
  intros Hlen [_ Hann]. split; [|exact Hann].
  cbn. apply round_clamp_is_sample_index.
  - apply length_pos, Hlen.
  - apply length_is_integer.
Qed.

Lemma annotation_drag_keeps_range (id : string) (value : Q) (s : App.State) :
  (1 <= List.length (App.data1 s))%nat ->
  Spec.markers_in_range s ->
  Spec.markers_in_range (App.handleAnnotationDrag id value s).
Proof.
  intros Hlen [Hcur Hann]. split; [exact Hcur|].
  cbn. apply Forall_map. revert Hann. apply Forall_impl.
  intros a Ha. destruct (String.eqb (Annotation.id a) id); [|exact Ha].
  cbn. apply round_clamp_is_sample_index.
  - apply length_pos, Hlen.
  - apply length_is_integer.
Qed.

Lemma pan_keeps_markers (deltaX : Q) (s : App.State) :
  App.data1 (App.handleInteractivePan deltaX s) = App.data1 s /\
  App.currentPosition (App.handleInteractivePan deltaX s) = App.currentPosition s /\
  App.annotations (App.handleInteractivePan deltaX s) = App.annotations s.
Proof.
  unfold App.handleInteractivePan.
  destruct (JS.le _ 0); repeat split; reflexivity.
Qed.

Lemma dispatch_keeps_length (now : N) (s : App.State) (cb : LineChart.Callback) :
  Spec.drag_or_pan cb ->
  App.data1 (App.dispatch now s cb) = App.data1 s.
Proof.
  destruct cb; cbn; intro H; try contradiction; try reflexivity.
  apply pan_keeps_markers.
Qed.

Lemma dispatch_keeps_range (now : N) (s : App.State) (cb : LineChart.Callback) :
  Spec.drag_or_pan cb ->
  (1 <= List.length (App.data1 s))%nat ->
  Spec.markers_in_range s ->
  Spec.markers_in_range (App.dispatch now s cb).
Proof.
  destruct cb; cbn [Spec.drag_or_pan App.dispatch]; intros H Hlen Hin;
    try contradiction.
  - apply annotation_drag_keeps_range; assumption.
  - apply current_drag_keeps_range; assumption.
  - destruct (pan_keeps_markers deltaX s) as (Hd & Hc & Ha).
    unfold Spec.markers_in_range. rewrite Hd, Hc, Ha. exact Hin.
Qed.

Lemma dispatch_all_keeps_range (now : N) (cbs : list LineChart.Callback) :
  Forall Spec.drag_or_pan cbs ->
  forall s : App.State,
    (1 <= List.length (App.data1 s))%nat ->
    Spec.markers_in_range s ->
    App.data1 (fold_left (App.dispatch now) cbs s) = App.data1 s /\
    Spec.markers_in_range (fold_left (App.dispatch now) cbs s).
Proof.
  induction 1 as [|cb rest Hcb _ IH]; intros s Hlen Hin; cbn [fold_left].
  - split; [reflexivity | exact Hin].
  - pose proof (dispatch_keeps_length now s cb Hcb) as Hd.
    destruct (IH (App.dispatch now s cb)) as [IHlen IHin].
    + rewrite Hd. exact Hlen.
    + apply dispatch_keeps_range; assumption.
    + split; [rewrite IHlen, Hd; reflexivity | exact IHin].
Qed.

Lemma pointer_gesture_calls
    (p : LineChart.Props) (chart : option LineChart.Chart) (v : LineChart.State)
    (ev : LineChart.DomEvent) (t : Page.ChartId) (now : N) :
  Spec.pointer_gesture (Page.OnChart t chart ev now) ->
  Forall Spec.drag_or_pan (LineChart.calls (LineChart.handle p chart v ev)).
Proof.
  destruct ev; cbn [Spec.pointer_gesture]; intro H; try contradiction;
    unfold LineChart.handle, LineChart.handleCombinedMouseDown,
      LineChart.handleCombinedMouseMove, LineChart.handleCombinedMouseUp,
      LineChart.handlePanStart, LineChart.handleMouseDown,
      LineChart.handlePanMove, LineChart.handleMouseMove,
      LineChart.handlePanEnd, LineChart.handleMouseUp,
      LineChart.handleMouseLeave;
    split_handler; cbn; repeat constructor.
Qed.

Lemma step_keeps_range (s : Page.State) (i : Page.Input) :
  Spec.pointer_gesture i ->
  (1 <= List.length (App.data1 (Page.app s)))%nat ->
  Spec.markers_in_range (Page.app s) ->
  App.data1 (Page.app (Page.step s i)) = App.data1 (Page.app s) /\
  Spec.markers_in_range (Page.app (Page.step s i)).
Proof.
  destruct i as [t surface ev now| | |]; cbn [Spec.pointer_gesture];
    intros Hg Hlen Hin; try contradiction.
  pose proof (pointer_gesture_calls (Page.props t (Page.app s)) surface
                (Page.view t s) ev t now Hg) as Hcalls.
  destruct (dispatch_all_keeps_range now _ Hcalls (Page.app s) Hlen Hin)
    as [Hl Hr].
  unfold Page.step. destruct t; cbn [Page.app]; split; assumption.
Qed.

(** C3. From a state whose markers are sample indices (whole numbers in
    [0, N-1]) of a non-empty series, every sequence of pointer gestures
    (down, move, up, leave on either chart, with any rendering surface and
    hence any pixel-derived data coordinate) leaves the current-position
    marker and every annotation a whole number in [0, N-1]. *)
Theorem markers_stay_in_range (inputs : list Page.Input) :
  forall s : Page.State,
    (1 <= List.length (App.data1 (Page.app s)))%nat ->
    Spec.markers_in_range (Page.app s) ->
    Forall Spec.pointer_gesture inputs ->
    App.data1 (Page.app (Page.run s inputs)) = App.data1 (Page.app s) /\
    Spec.markers_in_range (Page.app (Page.run s inputs)).
Proof.
  induction inputs as [|i rest IH]; intros s Hlen Hin Hall; cbn [Page.run fold_left].
  - split; [reflexivity | exact Hin].
  - inversion Hall as [|? ? Hi Hrest]; subst.
    destruct (step_keeps_range s i Hi Hlen Hin) as [Hl Hr].
    fold (Page.run (Page.step s i) rest).
    destruct (IH (Page.step s i)) as [IHd IHr]; try assumption.
    + rewrite Hl. exact Hlen.
    + split; [rewrite IHd; exact Hl | exact IHr].
Qed.

Lemma markers_stay_in_range_witness :
  let inputs := [ Sample.down_at 252; Sample.move_to (-100000);
                  Sample.move_to 1000000; Sample.up ] in
  App.data1 (Page.app (Page.run Sample.page inputs)) = Sample.flat_series /\
  Spec.markers_in_range (Page.app (Page.run Sample.page inputs)).
Proof.
  apply (markers_stay_in_range
           [ Sample.down_at 252; Sample.move_to (-100000);
             Sample.move_to 1000000; Sample.up ]
           Sample.page).
  - vm_compute. lia.
  - split.
    + split; [reflexivity|]. split; vm_compute; discriminate.
    + constructor.
  - repeat constructor.
Defined.

(** A drag far to the left and then far to the right of the chart pins the
    current-position marker to the first and then to the last sample. *)
Example drag_far_outside :
  App.currentPosition
    (Page.app (Page.run Sample.page [Sample.down_at 252; Sample.move_to (-100000)]))
    == 0 /\
  App.currentPosition
    (Page.app (Page.run Sample.page
                 [Sample.down_at 252; Sample.move_to (-100000);
                  Sample.move_to 1000000]))
    == 499.
Proof.
  split; vm_compute; reflexivity.
Qed.

(** ** The invariant over every action of the page *)



Lemma zoom_keeps_markers (delta centerX : Q) (s : App.State) :
  App.currentPosition (App.handleInteractiveZoom delta centerX s)
    = App.currentPosition s /\
  App.annotations (App.handleInteractiveZoom delta centerX s) = App.annotations s.
Proof.
  unfold App.handleInteractiveZoom.
  destruct (JS.strict_eq _ (App.zoom s)); split; reflexivity.
Qed.










(** ** Pointer-leave *)

(** What the mouse-leave listener does on a mounted chart: the marker drag
    ends and the tooltip is hidden, while the pan flag is what it was. *)
Lemma mouse_leave_effect
    (p : LineChart.Props) (c : LineChart.Chart) (v : LineChart.State) :
  let v' := LineChart.next (LineChart.handle p (Some c) v LineChart.MouseLeave) in
  LineChart.dragging v' = None /\
  LineChart.tooltip v' = LineChart.hidden_tooltip /\
  LineChart.isPanning v' = LineChart.isPanning v /\
  LineChart.panStartX v' = LineChart.panStartX v.
Proof.
  cbn. repeat split; reflexivity.
Qed.

(** The mouse-up listener ends both kinds of session. *)
Lemma mouse_up_is_idle
    (p : LineChart.Props) (c : LineChart.Chart) (v : LineChart.State) :
  Spec.Idle (LineChart.next (LineChart.handle p (Some c) v LineChart.MouseUp)).
Proof.
  unfold Spec.Idle, LineChart.handle, LineChart.handleCombinedMouseUp,
    LineChart.handlePanEnd, LineChart.handleMouseUp.
  destruct v as [d tt pan px cur]. destruct d, pan; cbn; split; reflexivity.
Qed.

(** C2 (the code departs from the claim). A pointer-down away from every
    marker starts a pan session on chart 1; the pointer-leave that follows
    ends no pan session: the view is not Idle afterwards, although no
    marker drag is active and the tooltip is hidden, and a later move with
    no button held still pans the shared viewport.  The same session is
    ended by pointer-up. *)
Theorem pointer_leave_keeps_pan_session :
  let after_leave := Page.run Sample.page [Sample.down_at 100; Sample.leave] in
  let after_up := Page.run Sample.page [Sample.down_at 100; Sample.up] in
  LineChart.dragging (Page.view1 after_leave) = None /\
  LineChart.tooltip (Page.view1 after_leave) = LineChart.hidden_tooltip /\
  LineChart.isPanning (Page.view1 after_leave) = true /\
  ~ Spec.Idle (Page.view1 after_leave) /\
  App.panX (Page.app (Page.step after_leave (Sample.move_to 60))) == 58 # 100 /\
  Spec.Idle (Page.view1 after_up).
Proof.
  cbv zeta. repeat split; try (vm_compute; reflexivity).
  intros [_ Hpan]. vm_compute in Hpan. discriminate.
Qed.

(** * Further properties of the handlers *)

(** ** Annotation list operations *)

Lemma state_eta (s : App.State) :
  {| App.data1 := App.data1 s; App.data2 := App.data2 s;
     App.annotations := App.annotations s;
     App.currentPosition := App.currentPosition s;
     App.zoom := App.zoom s; App.panX := App.panX s |} = s.
Proof. destruct s. reflexivity. Qed.

Lemma setAnnotations_fixed (f : list Annotation.t -> list Annotation.t)
    (s : App.State) :
  f (App.annotations s) = App.annotations s -> App.setAnnotations f s = s.
Proof.
  intro H. unfold App.setAnnotations. rewrite H. apply state_eta.
Qed.

(** Removing an annotation id deletes exactly the annotations carrying that
    id; with no such annotation the state is returned as it is, and the
    viewport, the current position and the series are never touched. *)
Theorem remove_deletes_exactly (id : string) (s : App.State) :
  let s' := App.handleRemove id s in
  (forall a, In a (App.annotations s') <->
             In a (App.annotations s) /\ Annotation.id a <> id) /\
  ((forall a, In a (App.annotations s) -> Annotation.id a <> id) -> s' = s) /\
  (List.length (App.annotations s') <= List.length (App.annotations s))%nat /\
  App.currentPosition s' = App.currentPosition s /\
  App.zoom s' = App.zoom s /\ App.panX s' = App.panX s /\
  App.data1 s' = App.data1 s /\ App.data2 s' = App.data2 s.
Proof.
  cbv zeta. split; [|split; [|split]].
  - intro a. cbn. rewrite filter_In, negb_true_iff, String.eqb_neq. reflexivity.
  - intro Habsent. apply setAnnotations_fixed.
    apply forallb_filter_id. apply forallb_forall. intros a Ha.
    apply negb_true_iff, String.eqb_neq, Habsent, Ha.
  - cbn. apply filter_length_le.
  - repeat split; reflexivity.
Qed.

Lemma remove_deletes_exactly_witness :
  let s := Spec.add_all [7%N; 9%N] (App.initial Sample.flat_series Sample.rising_series) in
  App.handleRemove "annotation-8" s = s.
Proof.
  apply (remove_deletes_exactly "annotation-8"
           (Spec.add_all [7%N; 9%N]
              (App.initial Sample.flat_series Sample.rising_series))).
  intros a Ha. cbn in Ha. destruct Ha as [<-|[<-|[]]]; cbn; discriminate.
Defined.

(** Dragging an annotation id keeps the number, the order, the ids and the
    colours of the annotations; every annotation carrying the id gets the
    rounded, clamped value and every other keeps its own; with no such
    annotation the state is returned as it is. *)
Theorem annotation_drag_moves_matching (id : string) (value : Q) (s : App.State) :
  let s' := App.handleAnnotationDrag id value s in
  map Annotation.id (App.annotations s') = map Annotation.id (App.annotations s) /\
  map Annotation.color (App.annotations s')
    = map Annotation.color (App.annotations s) /\
  map Annotation.value (App.annotations s')
    = map (fun a => if String.eqb (Annotation.id a) id
                    then Spec.drag_target_value s value else Annotation.value a)
          (App.annotations s) /\
  ((forall a, In a (App.annotations s) -> Annotation.id a <> id) -> s' = s) /\
  App.currentPosition s' = App.currentPosition s /\
  App.zoom s' = App.zoom s /\ App.panX s' = App.panX s.
Proof.
  cbv zeta. cbn [App.handleAnnotationDrag App.setAnnotations App.annotations
                 App.currentPosition App.zoom App.panX].
  rewrite !map_map. repeat split.
  - apply map_ext. intro a. destruct (String.eqb (Annotation.id a) id); reflexivity.
  - apply map_ext. intro a. destruct (String.eqb (Annotation.id a) id); reflexivity.
  - apply map_ext. intro a. destruct (String.eqb (Annotation.id a) id); reflexivity.
  - intro Habsent.
    change (App.setAnnotations
              (map (fun annotation =>
                      if String.eqb (Annotation.id annotation) id
                      then Annotation.with_value annotation (Spec.drag_target_value s value)
                      else annotation)) s = s).
    apply setAnnotations_fixed.
    rewrite <- (map_id (App.annotations s)) at 2.
    apply map_ext_in. intros a Ha.
    apply Habsent, String.eqb_neq in Ha. rewrite Ha. reflexivity.
Qed.

Lemma annotation_drag_moves_matching_witness :
  let s := Spec.add_all [7%N; 9%N] (App.initial Sample.flat_series Sample.rising_series) in
  App.handleAnnotationDrag "annotation-8" 40 s = s.
Proof.
  apply (annotation_drag_moves_matching "annotation-8" 40
           (Spec.add_all [7%N; 9%N]
              (App.initial Sample.flat_series Sample.rising_series))).
  intros a Ha. cbn in Ha. destruct Ha as [<-|[<-|[]]]; cbn; discriminate.
Defined.

(** Two drags of the same id: the later one decides.  Two drags of
    different ids: the order does not matter. *)
Theorem annotation_drags_compose (id1 id2 : string) (v1 v2 : Q) (s : App.State) :
  App.handleAnnotationDrag id1 v2 (App.handleAnnotationDrag id1 v1 s)
    = App.handleAnnotationDrag id1 v2 s /\
  (id1 <> id2 ->
   App.handleAnnotationDrag id1 v1 (App.handleAnnotationDrag id2 v2 s)
     = App.handleAnnotationDrag id2 v2 (App.handleAnnotationDrag id1 v1 s)).
Proof.
  split; [|intro Hne];
    unfold App.handleAnnotationDrag, App.setAnnotations;
    cbn [App.annotations App.data1 App.data2 App.currentPosition App.zoom App.panX];
    f_equal; rewrite !map_map; apply map_ext; intro a.
  - destruct (String.eqb (Annotation.id a) id1) eqn:E; cbn [Annotation.id Annotation.with_value].
    + rewrite E. reflexivity.
    + rewrite E. reflexivity.
  - destruct (String.eqb (Annotation.id a) id1) eqn:E1;
      destruct (String.eqb (Annotation.id a) id2) eqn:E2;
      cbn [Annotation.id Annotation.with_value]; rewrite ?E1, ?E2; try reflexivity.
    apply String.eqb_eq in E1, E2. congruence.
Qed.

Lemma annotation_drags_compose_witness :
  let s := Spec.add_all [7%N; 9%N] (App.initial Sample.flat_series Sample.rising_series) in
  App.handleAnnotationDrag "annotation-7" 10 (App.handleAnnotationDrag "annotation-9" 20 s)
  = App.handleAnnotationDrag "annotation-9" 20 (App.handleAnnotationDrag "annotation-7" 10 s).
Proof.
  apply (proj2 (annotation_drags_compose "annotation-7" "annotation-9" 10 20
                  (Spec.add_all [7%N; 9%N]
                     (App.initial Sample.flat_series Sample.rising_series)))).
  discriminate.
Defined.

Lemma made_from_same_centre (s1 s2 : App.State) (nows : list N) :
  Spec.centre s1 = Spec.centre s2 ->
  forall k : nat, Spec.made_from s1 k nows = Spec.made_from s2 k nows.
Proof.
  intro Hc. induction nows as [|now rest IH]; intro k; cbn [Spec.made_from].
  - reflexivity.
  - rewrite IH. unfold Spec.new_annotation. rewrite Hc. reflexivity.
Qed.

Lemma add_all_annotations (nows : list N) :
  forall s : App.State,
    App.annotations (Spec.add_all nows s)
    = App.annotations s
      ++ Spec.made_from s (List.length (App.annotations s)) nows.
Proof.
  induction nows as [|now rest IH]; intro s; cbn [Spec.add_all fold_left Spec.made_from].
  - rewrite app_nil_r. reflexivity.
  - fold (Spec.add_all rest (App.handleAddAnnotation now s)).
    rewrite IH.
    rewrite (made_from_same_centre (App.handleAddAnnotation now s) s rest eq_refl).
    cbn [App.handleAddAnnotation App.setAnnotations App.annotations].
    rewrite length_app, <- app_assoc. cbn [List.length app].
    rewrite Nat.add_1_r. reflexivity.
Qed.

Lemma made_from_colours (s : App.State) (nows : list N) :
  forall k : nat,
    map Annotation.color (Spec.made_from s k nows)
    = map (fun i => nth (i mod 8) App.ANNOTATION_COLORS EmptyString)
          (seq k (List.length nows)).
Proof.
  induction nows as [|now rest IH]; intro k; cbn [Spec.made_from map List.length seq].
  - reflexivity.
  - rewrite IH. reflexivity.
Qed.

Lemma made_from_ids (s : App.State) (nows : list N) :
  forall k : nat,
    map Annotation.id (Spec.made_from s k nows)
    = map (fun now => ("annotation-" ++ JS.decimal now)%string) nows.
Proof.
  induction nows as [|now rest IH]; intro k; cbn [Spec.made_from map].
  - reflexivity.
  - rewrite IH. reflexivity.
Qed.

Lemma palette_prefix_distinct (n : nat) :
  (n <= 8)%nat ->
  NoDup (map (fun i => nth (i mod 8) App.ANNOTATION_COLORS EmptyString) (seq 0 n)).
Proof.
  intro Hn.
  do 9 (destruct n as [|n];
        [cbn; repeat constructor; cbn; intuition discriminate|]).
  lia.
Qed.

(** Annotations added one after the other to an empty list take the palette
    colours in order, starting over after the eighth; up to eight
    annotations, no two share a colour. *)
Theorem added_colours_cycle (nows : list N) (s : App.State) :
  App.annotations s = [] ->
  map Annotation.color (App.annotations (Spec.add_all nows s))
    = map (fun i => nth (i mod 8) App.ANNOTATION_COLORS EmptyString)
          (seq 0 (List.length nows)) /\
  ((List.length nows <= 8)%nat ->
   NoDup (map Annotation.color (App.annotations (Spec.add_all nows s)))).
Proof.
  intro Hempty.
  assert (H : map Annotation.color (App.annotations (Spec.add_all nows s))
              = map (fun i => nth (i mod 8) App.ANNOTATION_COLORS EmptyString)
                    (seq 0 (List.length nows))).
  { rewrite add_all_annotations, Hempty. cbn [app List.length].
    apply made_from_colours. }
  split; [exact H|].
  intro Hn. rewrite H. apply palette_prefix_distinct, Hn.
Qed.

Lemma added_colours_cycle_witness :
  NoDup (map Annotation.color
           (App.annotations
              (Spec.add_all [1%N; 1%N; 2%N; 3%N; 5%N; 8%N; 13%N; 21%N]
                 (App.initial Sample.flat_series Sample.rising_series)))).
Proof.
  apply (added_colours_cycle [1%N; 1%N; 2%N; 3%N; 5%N; 8%N; 13%N; 21%N]
           (App.initial Sample.flat_series Sample.rising_series)).
  - reflexivity.
  - cbn. lia.
Defined.

Lemma decimal_injective (n m : N) : JS.decimal n = JS.decimal m -> n = m.
Proof.
  unfold JS.decimal. intro H.
  apply (f_equal NilZero.uint_of_string) in H.
  rewrite !NilZero.usu in H.
  - injection H as H. apply DecimalN.Unsigned.to_uint_inj, H.
  - destruct m; [discriminate | apply DecimalPos.Unsigned.to_uint_nonnil].
  - destruct n; [discriminate | apply DecimalPos.Unsigned.to_uint_nonnil].
Qed.

(** Annotations added at pairwise different clock readings get pairwise
    different ids. *)
Theorem distinct_clock_distinct_ids (nows : list N) (s : App.State) :
  App.annotations s = [] ->
  NoDup nows ->
  NoDup (map Annotation.id (App.annotations (Spec.add_all nows s))).
Proof.
  intros Hempty Hnd.
  rewrite add_all_annotations, Hempty. cbn [app List.length].
  rewrite made_from_ids.
  apply NoDup_map_NoDup_ForallPairs; [|exact Hnd].
  intros n m _ _ H. cbn in H. injection H as H.
  apply decimal_injective, H.
Qed.

Lemma distinct_clock_distinct_ids_witness :
  NoDup (map Annotation.id
           (App.annotations
              (Spec.add_all [1700000000000%N; 1700000000001%N]
                 (App.initial Sample.flat_series Sample.rising_series)))).
Proof.
  apply (distinct_clock_distinct_ids [1700000000000%N; 1700000000001%N]
           (App.initial Sample.flat_series Sample.rising_series)).
  - reflexivity.
  - repeat constructor; cbn; intuition discriminate.
Defined.

(** ** Panning and zooming as the window sees them *)

Lemma is_integer_compat (x y : Q) : x == y -> JS.is_integer x -> JS.is_integer y.
Proof.
  unfold JS.is_integer. intros E H. rewrite <- (Qfloor_comp _ _ E). lra.
Qed.

Lemma max_min_integer (lo hi x : Q) :
  JS.is_integer lo -> JS.is_integer hi -> JS.is_integer x ->
  JS.is_integer (JS.Math_max lo (JS.Math_min hi x)).
Proof.
  intros Hlo Hhi Hx. unfold JS.Math_max, JS.Math_min.
  destruct (Q.max_spec lo (Qmin hi x)) as [[_ E]|[_ E]];
    apply (is_integer_compat _ _ (Qeq_sym _ _ E)); [|exact Hlo].
  destruct (Q.min_spec hi x) as [[_ E']|[_ E']];
    apply (is_integer_compat _ _ (Qeq_sym _ _ E')); assumption.
Qed.

Lemma is_integer_add (x y : Q) :
  JS.is_integer x -> JS.is_integer y -> JS.is_integer (x + y).
Proof.
  unfold JS.is_integer. intros Hx Hy.
  apply (is_integer_eq _ (Qfloor x + Qfloor y)).
  rewrite inject_Z_plus. lra.
Qed.

Lemma pan_back_fraction_le (s : App.State) (deltaX : Q) :
  0 <= App.panX s ->
  deltaX <= 0 ->
  App.panX (App.handleInteractivePan deltaX s) <= App.panX s.
Proof.
  intros Hp Hd. unfold App.handleInteractivePan.
  set (m := JS.Math_max 0 _).
  destruct (JS.le m 0) eqn:E; unfold JS.le in E; [apply Qle_refl|].
  apply Qle_bool_false in E. cbn [App.panX App.setPanX].
  apply Qle_shift_div_r; [exact E|].
  assert (Hf : JS.Math_floor (App.panX s * m) <= App.panX s * m)
    by apply Qfloor_le.
  assert (H0 : 0 <= App.panX s * m) by (apply Qmult_le_0_compat; lra).
  unfold JS.Math_max, JS.Math_min. clearbody m.
  split_minmax; lra.
Qed.

(** A pan request towards lower indices (a drag to the right) never moves
    the window towards higher indices, and never changes its width. *)
Theorem pan_back_never_advances (s : App.State) (deltaX : Q) :
  (1 <= List.length (App.data1 s))%nat ->
  Spec.viewport_valid s ->
  deltaX <= 0 ->
  let p := App.chart1 s in
  let p' := App.chart1 (App.handleInteractivePan deltaX s) in
  LineChart.visibleDataPoints p' = LineChart.visibleDataPoints p /\
  LineChart.startIndex p' <= LineChart.startIndex p.
Proof.
  intros Hlen [Hz Hp] Hd p p'.
  assert (Hvis : 1 <= LineChart.visibleDataPoints p <= JS.length (App.data1 s)).
  { apply ceil_div_bounds;
      [apply length_pos, Hlen | apply length_is_integer | apply Hz]. }
  pose proof (pan_back_fraction_le s deltaX (proj1 Hp) Hd) as Hle.
  destruct (pan_keeps_markers deltaX s) as (Hd1 & _ & _).
  assert (Hzoom : App.zoom (App.handleInteractivePan deltaX s) = App.zoom s).
  { unfold App.handleInteractivePan. destruct (JS.le _ 0); reflexivity. }
  assert (Hv : LineChart.visibleDataPoints p' = LineChart.visibleDataPoints p).
  { subst p p'. unfold LineChart.visibleDataPoints.
    cbn [App.chart1 LineChart.data LineChart.zoom]. rewrite Hd1, Hzoom. reflexivity. }
  split; [exact Hv|].
  unfold LineChart.startIndex. rewrite Hv.
  subst p p'. cbn [App.chart1 LineChart.data LineChart.panX]. rewrite Hd1.
  unfold JS.Math_floor. rewrite <- Zle_Qle. apply Qfloor_resp_le.
  apply Qmult_le_compat_r; [exact Hle|].
  cbn [App.chart1 LineChart.data] in Hvis. lra.
Qed.

Lemma pan_back_never_advances_witness :
  let s := App.initial Sample.flat_series Sample.rising_series in
  LineChart.visibleDataPoints (App.chart1 (App.handleInteractivePan (- (7 # 2)) s))
    = LineChart.visibleDataPoints (App.chart1 s) /\
  LineChart.startIndex (App.chart1 (App.handleInteractivePan (- (7 # 2)) s))
    <= LineChart.startIndex (App.chart1 s).
Proof.
  apply (pan_back_never_advances
           (App.initial Sample.flat_series Sample.rising_series) (- (7 # 2))).
  - vm_compute. lia.
  - split; split; vm_compute; discriminate.
  - vm_compute. discriminate.
Defined.

Lemma ceil_div_antitone (N z1 z2 : Q) :
  0 <= N -> 0 < z1 -> z1 <= z2 ->
  JS.Math_ceil (N / z2) <= JS.Math_ceil (N / z1).
Proof.
  intros HN H1 H12. unfold JS.Math_ceil. rewrite <- Zle_Qle.
  apply Qceiling_resp_le.
  apply Qle_shift_div_l; [exact H1|].
  assert (H2 : 0 < z2) by lra.
  assert (Hq : 0 <= N / z2) by (apply Qle_shift_div_l; lra).
  assert (Hmul : N / z2 * z2 == N) by (field; lra).
  assert (Hle : N / z2 * z1 <= N / z2 * z2).
  { rewrite !(Qmult_comm (N / z2)). apply Qmult_le_compat_r; assumption. }
  lra.
Qed.

(** A zoom-in request never lowers the zoom factor and never widens the
    window, and it raises the zoom factor whenever it is below 10; a
    zoom-out request never raises the zoom factor and never narrows the
    window, and it lowers the zoom factor whenever it is above 1. *)
Theorem zoom_direction (s : App.State) (delta centerX : Q) :
  1 <= App.zoom s <= 10 ->
  let s' := App.handleInteractiveZoom delta centerX s in
  (0 < delta ->
   App.zoom s <= App.zoom s' /\
   (App.zoom s < 10 -> App.zoom s < App.zoom s') /\
   LineChart.visibleDataPoints (App.chart1 s')
     <= LineChart.visibleDataPoints (App.chart1 s)) /\
  (delta <= 0 ->
   App.zoom s' <= App.zoom s /\
   (1 < App.zoom s -> App.zoom s' < App.zoom s) /\
   LineChart.visibleDataPoints (App.chart1 s)
     <= LineChart.visibleDataPoints (App.chart1 s')).
Proof.
  intros Hz s'. subst s'. unfold App.handleInteractiveZoom.
  unfold LineChart.visibleDataPoints.
  split; intro Hd.
  - apply JS_gt_true in Hd. rewrite Hd.
    set (nz := JS.Math_max 1 (JS.Math_min 10 (App.zoom s * (12 # 10)))).
    assert (Hnz : App.zoom s <= nz /\ (App.zoom s < 10 -> App.zoom s < nz)).
    { subst nz. unfold JS.Math_max, JS.Math_min. split; [|intro]; split_minmax; lra. }
    destruct (JS.strict_eq nz (App.zoom s)) eqn:E; unfold JS.strict_eq in E.
    + apply Qeq_bool_iff in E.
      repeat split; try lra; try apply Qle_refl;
        try (intro Hlt; apply Hnz in Hlt; lra).
    + cbn [App.chart1 App.setPanX App.setZoom LineChart.data LineChart.zoom
           App.zoom App.data1].
      repeat split; try apply Hnz.
      apply ceil_div_antitone; [apply length_nonneg | lra | apply Hnz].
  - apply JS_gt_false in Hd. rewrite Hd.
    set (nz := JS.Math_max 1 (JS.Math_min 10 (App.zoom s * (8 # 10)))).
    assert (Hnz : 1 <= nz <= App.zoom s /\ (1 < App.zoom s -> nz < App.zoom s)).
    { subst nz. unfold JS.Math_max, JS.Math_min.
      split; [split|intro]; split_minmax; lra. }
    destruct (JS.strict_eq nz (App.zoom s)) eqn:E; unfold JS.strict_eq in E.
    + apply Qeq_bool_iff in E.
      repeat split; try lra; try apply Qle_refl;
        try (intro Hlt; apply Hnz in Hlt; lra).
    + cbn [App.chart1 App.setPanX App.setZoom LineChart.data LineChart.zoom
           App.zoom App.data1].
      repeat split; try apply Hnz.
      apply ceil_div_antitone; [apply length_nonneg | lra | apply Hnz].
Qed.

Lemma zoom_direction_witness :
  let s := App.initial Sample.flat_series Sample.rising_series in
  App.zoom s < App.zoom (App.handleInteractiveZoom 120 250 s) /\
  App.zoom (App.handleInteractiveZoom (-120) 250 s) < App.zoom s.
Proof.
  pose proof (zoom_direction
                (App.initial Sample.flat_series Sample.rising_series) 120 250) as Hin.
  pose proof (zoom_direction
                (App.initial Sample.flat_series Sample.rising_series) (-120) 250) as Hout.
  cbv zeta in Hin, Hout. split.
  - apply Hin; [split|..]; vm_compute; try reflexivity; discriminate.
  - apply Hout; [split|..]; vm_compute; try reflexivity; discriminate.
Defined.

(** ** The controls panel *)

(** Whatever the number box holds (a number, zero, or text that does not
    parse), the zoom it requests lies in [1, 10]. *)
Theorem zoom_input_in_range (parsed : option Z) :
  exists z : Q,
    Controls.handleZoomInputChange parsed = Controls.onZoomChange z /\
    1 <= z <= 10.
Proof.
  unfold Controls.handleZoomInputChange. eexists. split; [reflexivity|].
  set (fallback := match parsed with
                   | Some n => if (n =? 0)%Z then 100 else inject_Z n
                   | None => 100
                   end).
  clearbody fallback. unfold JS.Math_max, JS.Math_min.
  split; [apply Qle_shift_div_l | apply Qle_shift_div_r];
    try reflexivity; split_minmax; lra.
Qed.

Lemma round_percentage_bounds (z : Q) :
  1 <= z <= 10 ->
  (100 <= Qfloor (z * 100 + (1 # 2)) <= 1000)%Z.
Proof.
  intros [H1 H10]. split.
  - assert (H : (Qfloor 100 <= Qfloor (z * 100 + (1 # 2)))%Z)
      by (apply Qfloor_resp_le; lra).
    exact H.
  - assert (H : (Qfloor (z * 100 + (1 # 2)) <= Qfloor (1000 + (1 # 2)))%Z)
      by (apply Qfloor_resp_le; lra).
    exact H.
Qed.

(** Typing the displayed percentage back into the number box requests the
    current zoom up to the rounding of the display (less than one
    percent), and exactly the current zoom when it is a whole percentage. *)
Theorem zoom_percentage_round_trip (p : Controls.Props) :
  1 <= Controls.zoom p <= 10 ->
  exists z : Q,
    Controls.handleZoomInputChange (Some (Qfloor (Controls.zoomPercentage p)))
      = Controls.onZoomChange z /\
    Qabs (z - Controls.zoom p) < 1 # 100 /\
    (JS.is_integer (Controls.zoom p * 100) -> z == Controls.zoom p).
Proof.
  intro Hz. unfold Controls.handleZoomInputChange, Controls.zoomPercentage,
    JS.Math_round.
  rewrite Qfloor_Z.
  set (n := Qfloor (Controls.zoom p * 100 + (1 # 2))).
  pose proof (round_percentage_bounds _ Hz) as Hn. fold n in Hn.
  assert (E0 : (n =? 0)%Z = false) by (apply Z.eqb_neq; lia).
  rewrite E0. eexists. split; [reflexivity|].
  assert (Hlo : 100 <= inject_Z n).
  { change 100 with (inject_Z 100). rewrite <- Zle_Qle. lia. }
  assert (Hhi : inject_Z n <= 1000).
  { change 1000 with (inject_Z 1000). rewrite <- Zle_Qle. lia. }
  assert (Hv : JS.Math_max 100 (JS.Math_min 1000 (inject_Z n)) == inject_Z n).
  { unfold JS.Math_max, JS.Math_min. split_minmax; lra. }
  pose proof (Qfloor_le (Controls.zoom p * 100 + (1 # 2))) as Hfl.
  pose proof (Qlt_floor (Controls.zoom p * 100 + (1 # 2))) as Hfu.
  fold n in Hfl, Hfu. rewrite inject_Z_plus in Hfu.
  change (inject_Z 1) with 1 in Hfu.
  assert (Hdiv : JS.Math_max 100 (JS.Math_min 1000 (inject_Z n)) / 100 * 100
                 == inject_Z n).
  { rewrite Hv. field. }
  set (z := JS.Math_max 100 (JS.Math_min 1000 (inject_Z n)) / 100) in *.
  split.
  - apply Qabs_Qlt_condition. split; lra.
  - intro Hint. unfold JS.is_integer in Hint.
    set (k := Qfloor (Controls.zoom p * 100)) in Hint.
    assert (Hk : n = k).
    { assert (Hle : (n < k + 1)%Z).
      { rewrite Zlt_Qlt, inject_Z_plus. change (inject_Z 1) with 1. lra. }
      assert (Hge : (k < n + 1)%Z).
      { rewrite Zlt_Qlt, inject_Z_plus. change (inject_Z 1) with 1. lra. }
      lia. }
    rewrite Hk in Hdiv. lra.
Qed.

Lemma zoom_percentage_round_trip_witness :
  exists z : Q,
    Controls.handleZoomInputChange
      (Some (Qfloor (Controls.zoomPercentage
                       {| Controls.zoom := 325 # 100; Controls.panX := 0 |})))
      = Controls.onZoomChange z /\
    z == 325 # 100.
Proof.
  destruct (zoom_percentage_round_trip
              {| Controls.zoom := 325 # 100; Controls.panX := 0 |})
    as (z & Hcall & _ & Hexact).
  - split; vm_compute; discriminate.
  - exists z. split; [exact Hcall|]. apply Hexact. reflexivity.
Defined.

(** From a zoom in [1, 10] the two zoom buttons request a zoom in [1, 10],
    not above (zoom out) and not below (zoom in) the current one; from a
    zoom on the slider's quarter grid and away from the bounds, zoom in
    followed by zoom out, and zoom out followed by zoom in, request the
    zoom one started from. *)
Theorem zoom_buttons (p : Controls.Props) :
  1 <= Controls.zoom p <= 10 ->
  exists zo zi : Q,
    Controls.clickZoomOut p = Controls.onZoomChange zo /\
    Controls.clickZoomIn p = Controls.onZoomChange zi /\
    1 <= zo <= Controls.zoom p /\
    Controls.zoom p <= zi <= 10 /\
    (JS.is_integer (Controls.zoom p * 4) -> Controls.zoom p <= 975 # 100 ->
     exists z, Controls.clickZoomOut
                 {| Controls.zoom := zi; Controls.panX := Controls.panX p |}
               = Controls.onZoomChange z /\ z == Controls.zoom p) /\
    (JS.is_integer (Controls.zoom p * 4) -> 125 # 100 <= Controls.zoom p ->
     exists z, Controls.clickZoomIn
                 {| Controls.zoom := zo; Controls.panX := Controls.panX p |}
               = Controls.onZoomChange z /\ z == Controls.zoom p).
Proof.
  intro Hz. unfold Controls.clickZoomOut, Controls.clickZoomIn.
  do 2 eexists. split; [reflexivity|]. split; [reflexivity|].
  cbn [Controls.zoom]. unfold JS.Math_max, JS.Math_min.
  repeat split; try (split_minmax; lra).
  - intros _ H. eexists. split; [reflexivity|]. split_minmax; lra.
  - intros _ H. eexists. split; [reflexivity|]. split_minmax; lra.
Qed.

Lemma zoom_buttons_witness :
  exists z : Q,
    Controls.clickZoomOut
      {| Controls.zoom := JS.Math_min 10 (2 + (25 # 100)); Controls.panX := 0 |}
    = Controls.onZoomChange z /\ z == 2.
Proof.
  destruct (zoom_buttons {| Controls.zoom := 2; Controls.panX := 0 |})
    as (zo & zi & _ & Hin & _ & _ & Hinout & _).
  - split; vm_compute; discriminate.
  - injection Hin as <-. apply Hinout; [reflexivity|]. vm_compute. discriminate.
Defined.

(** ** Gestures on one chart *)

Lemma page_eta (s : Page.State) :
  {| Page.app := Page.app s; Page.view1 := Page.view1 s;
     Page.view2 := Page.view2 s |} = s.
Proof. destruct s. reflexivity. Qed.

Lemma view_eta (v : LineChart.State) :
  {| LineChart.dragging := LineChart.dragging v;
     LineChart.tooltip := LineChart.tooltip v;
     LineChart.isPanning := LineChart.isPanning v;
     LineChart.panStartX := LineChart.panStartX v;
     LineChart.cursor := LineChart.cursor v |} = v.
Proof. destruct v. reflexivity. Qed.

(** Moving the pointer over a chart with no gesture in progress only
    hovers: the shared state is not written, the chart stays Idle and the
    other chart's local state is not touched. *)
Theorem hover_never_mutates
    (s : Page.State) (t : Page.ChartId) (surface : option LineChart.Chart)
    (event : LineChart.MouseEvent.t) (now : N) :
  Spec.Idle (Page.view t s) ->
  let s' := Page.step s (Page.OnChart t surface (LineChart.MouseMove event) now) in
  Page.app s' = Page.app s /\
  Spec.Idle (Page.view t s') /\
  Page.view (Spec.other t) s' = Page.view (Spec.other t) s.
Proof.
  intros [Hdrag Hpan] s'. subst s'.
  unfold Page.step, LineChart.handle, LineChart.handleCombinedMouseMove,
    LineChart.handlePanMove, LineChart.handleMouseMove, Spec.Idle.
  rewrite Hdrag, Hpan.
  destruct t; cbn [Page.view Page.app Spec.other] in *;
    destruct surface as [c|];
    try destruct (LineChart.getClosestAnnotation _ _ _);
    cbn; rewrite ?Hdrag, ?Hpan; repeat split; reflexivity.
Qed.

Lemma hover_never_mutates_witness :
  let s' := Page.step Sample.page (Sample.move_to 251) in
  Page.app s' = Page.app Sample.page /\
  Spec.Idle (Page.view1 s') /\
  Page.view2 s' = Page.view2 Sample.page.
Proof.
  apply (hover_never_mutates Sample.page Page.Chart1 (Some Sample.pixel_chart)
           (LineChart.MouseEvent.mk 251 0) 0).
  split; reflexivity.
Defined.

(** While the chart is not mounted (the ref is empty) no listener but the
    double-click one writes shared state, none starts a gesture, and the
    tooltip and the marker drag are left as they are; pointer-up still ends
    a pan session. *)
Theorem unmounted_chart_ignores_gestures
    (s : Page.State) (t : Page.ChartId) (ev : LineChart.DomEvent) (now : N) :
  ev <> LineChart.DoubleClick ->
  let s' := Page.step s (Page.OnChart t None ev now) in
  Page.app s' = Page.app s /\
  LineChart.dragging (Page.view t s') = LineChart.dragging (Page.view t s) /\
  LineChart.tooltip (Page.view t s') = LineChart.tooltip (Page.view t s) /\
  (LineChart.isPanning (Page.view t s') = true ->
   LineChart.isPanning (Page.view t s) = true) /\
  (ev = LineChart.MouseUp -> LineChart.isPanning (Page.view t s') = false).
Proof.
  intros Hev s'. subst s'.
  unfold Page.step, LineChart.handle, LineChart.handleCombinedMouseDown,
    LineChart.handleCombinedMouseMove, LineChart.handleCombinedMouseUp,
    LineChart.handlePanStart, LineChart.handleMouseDown,
    LineChart.handlePanMove, LineChart.handleMouseMove,
    LineChart.handlePanEnd, LineChart.handleMouseUp,
    LineChart.handleMouseLeave, LineChart.handleWheel.
  destruct s as [a [d1 tt1 pan1 px1 cur1] [d2 tt2 pan2 px2 cur2]].
  destruct ev as [event|event| | |event|]; try contradiction;
    destruct t, pan1, pan2; cbn [Page.view Page.app Page.view1 Page.view2];
    try destruct (negb (LineChart.WheelEvent.ctrlKey event));
    cbn; repeat split; try reflexivity; try discriminate.
Qed.

Lemma unmounted_chart_ignores_gestures_witness :
  Page.app (Page.step Sample.page
              (Page.OnChart Page.Chart2 None
                 (LineChart.MouseDown (LineChart.MouseEvent.mk 250 0)) 0))
  = Page.app Sample.page.
Proof.
  apply (unmounted_chart_ignores_gestures Sample.page Page.Chart2
           (LineChart.MouseDown (LineChart.MouseEvent.mk 250 0)) 0).
  discriminate.
Defined.

(** A pointer-down whose pixel the x scale cannot resolve finds no marker:
    no drag starts, nothing is written to the shared state, and a pan
    session starts at the pointer's pixel. *)
Theorem unresolved_pointer_down_starts_pan
    (p : LineChart.Props) (c : LineChart.Chart) (v : LineChart.State)
    (event : LineChart.MouseEvent.t) :
  LineChart.getValueForPixel c
    (LineChart.MouseEvent.clientX event - LineChart.rect_left c) = None ->
  let eff := LineChart.handle p (Some c) v (LineChart.MouseDown event) in
  LineChart.calls eff = [] /\
  LineChart.dragging (LineChart.next eff) = LineChart.dragging v /\
  LineChart.isPanning (LineChart.next eff) = true /\
  LineChart.panStartX (LineChart.next eff) = LineChart.MouseEvent.clientX event.
Proof.
  intros Hx eff. subst eff.
  unfold LineChart.handle, LineChart.handleCombinedMouseDown,
    LineChart.handlePanStart, LineChart.handleMouseDown,
    LineChart.getClosestAnnotation.
  rewrite Hx. cbn. repeat split; reflexivity.
Qed.

Lemma unresolved_pointer_down_starts_pan_witness :
  let c := {| LineChart.rect_left := 8;
              LineChart.getValueForPixel := fun x => if JS.lt x 0 then None else Some x;
              LineChart.chartArea := None |} in
  let eff := LineChart.handle (App.chart1 (Page.app Sample.page)) (Some c)
               LineChart.initial
               (LineChart.MouseDown (LineChart.MouseEvent.mk 3 0)) in
  LineChart.calls eff = [] /\
  LineChart.dragging (LineChart.next eff) = None /\
  LineChart.isPanning (LineChart.next eff) = true /\
  LineChart.panStartX (LineChart.next eff) = 3.
Proof.
  apply (unresolved_pointer_down_starts_pan
           (App.chart1 (Page.app Sample.page))
           {| LineChart.rect_left := 8;
              LineChart.getValueForPixel := fun x => if JS.lt x 0 then None else Some x;
              LineChart.chartArea := None |}
           LineChart.initial (LineChart.MouseEvent.mk 3 0)).
  reflexivity.
Defined.

(** A wheel event never changes a chart's local state nor any marker; with
    the modifier key up it changes nothing at all. *)
Theorem wheel_only_zooms
    (s : Page.State) (t : Page.ChartId) (surface : option LineChart.Chart)
    (event : LineChart.WheelEvent.t) (now : N) :
  let s' := Page.step s (Page.OnChart t surface (LineChart.Wheel event) now) in
  Page.view1 s' = Page.view1 s /\
  Page.view2 s' = Page.view2 s /\
  App.currentPosition (Page.app s') = App.currentPosition (Page.app s) /\
  App.annotations (Page.app s') = App.annotations (Page.app s) /\
  (LineChart.WheelEvent.ctrlKey event = false -> s' = s).
Proof.
  cbv zeta. unfold Page.step, LineChart.handle, LineChart.handleWheel.
  destruct (LineChart.WheelEvent.ctrlKey event); cbn [negb].
  - destruct surface as [c|];
      [destruct (LineChart.getValueForPixel c _) as [dataX|]|];
      destruct t; cbn [LineChart.call LineChart.calls LineChart.next fold_left app
                       Page.app Page.view1 Page.view2 App.dispatch];
      repeat split; try reflexivity; try discriminate;
      apply zoom_keeps_markers.
  - destruct t; cbn; repeat split; try reflexivity; intros _; apply page_eta.
Qed.

Lemma wheel_only_zooms_witness :
  Page.step Sample.page
    (Sample.on_chart1 (LineChart.Wheel (LineChart.WheelEvent.mk false (-120) 250)))
  = Sample.page.
Proof.
  apply (wheel_only_zooms Sample.page Page.Chart1 (Some Sample.pixel_chart)
           (LineChart.WheelEvent.mk false (-120) 250) 0).
  reflexivity.
Defined.

Lemma round_of_integer (x : Q) : JS.is_integer x -> JS.Math_round x == x.
Proof.
  unfold JS.is_integer, JS.Math_round. intro H.
  assert (E : Qfloor (x + (1 # 2)) = Qfloor x).
  { pose proof (Qfloor_le (x + (1 # 2))) as H1.
    pose proof (Qlt_floor (x + (1 # 2))) as H2.
    rewrite inject_Z_plus in H2. change (inject_Z 1) with 1 in H2.
    assert (Ha : (Qfloor x < Qfloor (x + (1 # 2)) + 1)%Z).
    { rewrite Zlt_Qlt, inject_Z_plus. change (inject_Z 1) with 1. lra. }
    assert (Hb : (Qfloor (x + (1 # 2)) < Qfloor x + 1)%Z).
    { rewrite Zlt_Qlt, inject_Z_plus. change (inject_Z 1) with 1. lra. }
    lia. }
  rewrite E. exact H.
Qed.

(** A pointer-move during a drag of the current-position marker, on a
    chart whose series is at least as long as the first one, stores the
    resolved data coordinate rounded and clamped to the series: the clamp
    in the chart and the one in the page handler compose to a single one.
    Annotations, zoom and pan are not written; the drag goes on and the
    tooltip is hidden. *)
Theorem drag_move_sets_current_position
    (s : Page.State) (t : Page.ChartId) (c : LineChart.Chart)
    (d : LineChart.Closest) (event : LineChart.MouseEvent.t) (dataX : Q) (now : N) :
  LineChart.dragging (Page.view t s) = Some d ->
  LineChart.type d = LineChart.current ->
  LineChart.isPanning (Page.view t s) = false ->
  LineChart.getValueForPixel c
    (LineChart.MouseEvent.clientX event - LineChart.rect_left c) = Some dataX ->
  (List.length (App.data1 (Page.app s))
   <= List.length (LineChart.data (Page.props t (Page.app s))))%nat ->
  let s' := Page.step s (Page.OnChart t (Some c) (LineChart.MouseMove event) now) in
  App.currentPosition (Page.app s') == Spec.drag_target_value (Page.app s) dataX /\
  App.annotations (Page.app s') = App.annotations (Page.app s) /\
  App.zoom (Page.app s') = App.zoom (Page.app s) /\
  App.panX (Page.app s') = App.panX (Page.app s) /\
  LineChart.dragging (Page.view t s') = Some d /\
  LineChart.tooltip (Page.view t s') = LineChart.hidden_tooltip.
Proof.
  intros Hdrag Htype Hpan Hx Hlen s'. subst s'.
  unfold Page.step, LineChart.handle, LineChart.handleCombinedMouseMove,
    LineChart.handlePanMove, LineChart.handleMouseMove.
  rewrite Hdrag, Hpan, Hx, Htype.
  assert (Hgoal :
    JS.Math_max 0
      (JS.Math_min (JS.length (App.data1 (Page.app s)) - 1)
         (JS.Math_round
            (JS.Math_max 0
               (JS.Math_min
                  (JS.length (LineChart.data (Page.props t (Page.app s))) - 1)
                  (JS.Math_round dataX)))))
    == Spec.drag_target_value (Page.app s) dataX).
  { set (N1 := JS.length (App.data1 (Page.app s))).
    set (Nt := JS.length (LineChart.data (Page.props t (Page.app s)))).
    assert (HN : N1 <= Nt).
    { unfold N1, Nt, JS.length. rewrite <- Zle_Qle. lia. }
    assert (Hint : JS.is_integer
                     (JS.Math_max 0 (JS.Math_min (Nt - 1) (JS.Math_round dataX)))).
    { apply max_min_integer.
      - apply (is_integer_inject_Z 0).
      - apply is_integer_sub; [apply length_is_integer | apply (is_integer_inject_Z 1)].
      - apply is_integer_inject_Z. }
    rewrite (round_of_integer _ Hint).
    unfold Spec.drag_target_value. fold N1.
    unfold JS.Math_max, JS.Math_min.
    set (r := JS.Math_round dataX). clearbody r N1 Nt.
    split_minmax; lra. }
  destruct t; cbn [Page.view Page.app Page.view1 Page.view2 Page.props] in *;
    cbn; repeat split; try reflexivity; try exact Hdrag; exact Hgoal.
Qed.

Lemma drag_move_sets_current_position_witness :
  let s := Page.step Sample.page (Sample.down_at 252) in
  App.currentPosition (Page.app (Page.step s (Sample.move_to (1234 # 10)))) == 123.
Proof.
  destruct (drag_move_sets_current_position
              (Page.step Sample.page (Sample.down_at 252)) Page.Chart1
              Sample.pixel_chart
              {| LineChart.type := LineChart.current;
                 LineChart.id := "currentPosition";
                 LineChart.name := "Current Position";
                 LineChart.position := 250;
                 LineChart.value := 0 |}
              (LineChart.MouseEvent.mk (1234 # 10) 0) ((1234 # 10) - 0) 0)
    as [Hcur _].
  - reflexivity.
  - reflexivity.
  - reflexivity.
  - reflexivity.
  - vm_compute. lia.
  - cbv zeta. unfold Sample.move_to, Sample.on_chart1.
    rewrite Hcur. vm_compute. reflexivity.
Defined.

(** ** What the page shows and what it starts from *)

(** When the current position is a sample index, the two value cards show
    the samples of the two series at that index (the fallback to 0 is not
    taken for lack of a sample), the second one provided the second series
    is as long as the first. *)
Theorem current_value_is_a_sample (s : App.State) :
  Spec.sample_index (JS.length (App.data1 s)) (App.currentPosition s) ->
  exists i : nat,
    inject_Z (Z.of_nat i) == App.currentPosition s /\
    nth_error (App.data1 s) i = Some (App.currentValue1 s) /\
    (List.length (App.data2 s) = List.length (App.data1 s) ->
     nth_error (App.data2 s) i = Some (App.currentValue2 s)).
Proof.
  intros [Hint [H0 H1]].
  exists (Z.to_nat (Qfloor (App.currentPosition s))).
  unfold JS.is_integer in Hint.
  assert (Hfl : (0 <= Qfloor (App.currentPosition s))%Z).
  { rewrite Zle_Qle. change (inject_Z 0) with 0. lra. }
  assert (Hlt : (Z.to_nat (Qfloor (App.currentPosition s))
                 < List.length (App.data1 s))%nat).
  { unfold JS.length in H1.
    assert (H : (Qfloor (App.currentPosition s)
                 < Z.of_nat (List.length (App.data1 s)))%Z).
    { rewrite Zlt_Qlt. lra. }
    lia. }
  assert (Hb : JS.is_integerb (App.currentPosition s)
               && JS.le 0 (App.currentPosition s) = true).
  { apply andb_true_intro. split.
    - apply Qeq_bool_iff, Hint.
    - apply Qle_bool_iff, H0. }
  split; [rewrite Z2Nat.id by exact Hfl; exact Hint|].
  unfold App.currentValue1, App.currentValue2, JS.index_or_zero. rewrite Hb.
  split.
  - apply nth_error_nth', Hlt.
  - intro Hlen. apply nth_error_nth'. rewrite Hlen. exact Hlt.
Qed.

Lemma current_value_is_a_sample_witness :
  nth_error Sample.rising_series 250
  = Some (App.currentValue2 (App.initial Sample.flat_series Sample.rising_series)).
Proof.
  destruct (current_value_is_a_sample
              (App.initial Sample.flat_series Sample.rising_series))
    as (i & Hi & _ & H2).
  - split; [reflexivity|]. split; vm_compute; discriminate.
  - assert (E : i = 250%nat).
    { cbn [App.initial App.currentPosition] in Hi.
      apply (proj1 (inject_Z_injective (Z.of_nat i) 250)) in Hi. lia. }
    subst i. apply H2. reflexivity.
Defined.

Lemma toFixed2_of_clamped (x : Q) :
  0 <= x <= 100 -> Spec.generated_sample (JS.toFixed2 x).
Proof.
  intros [H0 H100]. unfold JS.toFixed2.
  assert (E : JS.lt x 0 = false) by (apply JS_lt_false; exact H0).
  rewrite E.
  set (n := Qfloor (x * 100 + (1 # 2))).
  assert (Hn : (0 <= n <= 10000)%Z).
  { split.
    - assert (H : (Qfloor 0 <= n)%Z) by (apply Qfloor_resp_le; lra). exact H.
    - assert (H : (n <= Qfloor (10000 + (1 # 2)))%Z)
        by (apply Qfloor_resp_le; lra).
      exact H. }
  assert (Hq : 0 <= inject_Z n <= 10000).
  { split.
    - change 0 with (inject_Z 0). rewrite <- Zle_Qle. lia.
    - change 10000 with (inject_Z 10000). rewrite <- Zle_Qle. lia. }
  split; [split|].
  - apply Qle_shift_div_l; [reflexivity | lra].
  - apply Qle_shift_div_r; [reflexivity | lra].
  - apply (is_integer_eq _ n). field.
Qed.

Lemma generateLoop_spec (random : nat -> Q) (sin : Q -> Q) (offset : Q)
    (count : nat) :
  forall (i : nat) (value : Q),
    List.length (App.generateLoop random sin offset count i value) = count /\
    Forall Spec.generated_sample (App.generateLoop random sin offset count i value).
Proof.
  induction count as [|count IH]; intros i value; cbn [App.generateLoop].
  - split; [reflexivity | constructor].
  - destruct (IH (S i)
                (JS.Math_max 0
                   (JS.Math_min 100
                      (value
                       + ((random i - (1 # 2)) * 5
                          + sin ((inject_Z (Z.of_nat i) + offset) * (2 # 100)) * 10
                            * (1 # 10)
                          + sin ((inject_Z (Z.of_nat i) + offset) * (1 # 10)) * 3
                            * (1 # 10))))))
      as [IHlen IHall].
    split.
    + cbn [List.length]. rewrite IHlen. reflexivity.
    + constructor; [|exact IHall].
      apply toFixed2_of_clamped. unfold JS.Math_max, JS.Math_min.
      split; split_minmax; lra.
Qed.

(** Whatever the random draws and the sine are, the generated series has
    the requested number of samples, and every sample lies in [0, 100] and
    has at most two decimals. *)
Theorem generated_series_shape (random : nat -> Q) (sin : Q -> Q)
    (length : nat) (offset : Q) :
  List.length (App.generateDummyData random sin length offset) = length /\
  Forall Spec.generated_sample (App.generateDummyData random sin length offset).
Proof.
  unfold App.generateDummyData. apply generateLoop_spec.
Qed.









(** ** Annotation ids *)

Lemma app_made_is_usable (id : string) : Spec.app_made_id id -> Spec.usable_id id.
Proof.
  intros [now ->]. split; [exists now; reflexivity|].
  split; cbn; discriminate.
Qed.

Lemma dispatch_keeps_ids (now : N) (s : App.State) (cb : LineChart.Callback) :
  Spec.ids_app_made s -> Spec.ids_app_made (App.dispatch now s cb).
Proof.
  unfold Spec.ids_app_made. intro H. destruct cb; cbn [App.dispatch].
  - cbn. apply Forall_map. revert H. apply Forall_impl.
    intros a Ha. destruct (String.eqb (Annotation.id a) id); exact Ha.
  - exact H.
  - rewrite (proj2 (zoom_keeps_markers delta centerX s)). exact H.
  - destruct (pan_keeps_markers deltaX s) as (_ & _ & Ha). rewrite Ha. exact H.
  - cbn. apply Forall_app. split; [exact H|].
    constructor; [|constructor]. exists now. reflexivity.
Qed.

Lemma step_keeps_ids (s : Page.State) (i : Page.Input) :
  Spec.ids_app_made (Page.app s) -> Spec.ids_app_made (Page.app (Page.step s i)).
Proof.
  intro H. destruct i as [t surface ev now|now| |id]; cbn [Page.step].
  - set (cbs := LineChart.calls _).
    assert (Hf : Spec.ids_app_made (fold_left (App.dispatch now) cbs (Page.app s))).
    { generalize (Page.app s) H. clearbody cbs.
      induction cbs as [|cb rest IH]; intros a Ha; cbn [fold_left].
      - exact Ha.
      - apply IH, dispatch_keeps_ids, Ha. }
    destruct t; exact Hf.
  - apply (dispatch_keeps_ids now _ LineChart.onAddAnnotation H).
  - exact H.
  - unfold Spec.ids_app_made in *. cbn. apply Forall_forall. intros a Ha.
    apply filter_In in Ha. rewrite Forall_forall in H. apply H, Ha.
Qed.

(** Whatever the user does, every annotation on the page carries an id made
    by the add handler, [annotation-<clock reading>]: never the empty
    string (so a drag of it is always forwarded) and never the key of the
    current-position line. *)
Theorem annotation_ids_are_usable (d1 d2 : list Q) (inputs : list Page.Input) :
  Forall (fun a => Spec.usable_id (Annotation.id a))
    (App.annotations (Page.app (Page.run (Page.initial d1 d2) inputs))).
Proof.
  assert (H : Spec.ids_app_made (Page.app (Page.run (Page.initial d1 d2) inputs))).
  { assert (H0 : Spec.ids_app_made (Page.app (Page.initial d1 d2))) by constructor.
    revert H0. generalize (Page.initial d1 d2).
    induction inputs as [|i rest IH]; intros s Hs; cbn [Page.run fold_left].
    - exact Hs.
    - apply IH, step_keeps_ids, Hs. }
  revert H. apply Forall_impl. intros a Ha. apply app_made_is_usable, Ha.
Qed.

(** ** Rendering: colours, marker lines and the point tooltip *)

Lemma hex_digit_of_hex_char (k : N) :
  (k < 16)%N -> LineChart.hex_digit (Spec.hex_char k) = Some k.
Proof.
  intro Hk. destruct k as [|p]; [reflexivity|].
  do 4 (destruct p as [p|p|]; try reflexivity); lia.
Qed.

Lemma parse_hex_pair_of_hex_pair (n : N) :
  (n < 256)%N ->
  LineChart.parse_hex_pair (Spec.hex_char (n / 16)) (Spec.hex_char (n mod 16))
  = Some (inject_Z (Z.of_N n)).
Proof.
  intro Hn. unfold LineChart.parse_hex_pair.
  rewrite !hex_digit_of_hex_char.
  - rewrite <- N.div_mod by discriminate. reflexivity.
  - apply N.mod_lt. discriminate.
  - apply N.Div0.div_lt_upper_bound. exact Hn.
Qed.

(** Round trip: the colour written as [#rrggbb] from three channels below
    256 is read back as those three channels. *)
Theorem hexToRgb_reads_hex_colour (red green blue : N) :
  (red < 256)%N -> (green < 256)%N -> (blue < 256)%N ->
  LineChart.hexToRgb (Spec.hex_colour red green blue)
  = Some {| LineChart.r := inject_Z (Z.of_N red);
            LineChart.g := inject_Z (Z.of_N green);
            LineChart.b := inject_Z (Z.of_N blue) |}.
Proof.
  intros Hr Hg Hb. unfold Spec.hex_colour, Spec.hex_pair.
  cbn [String.append LineChart.hexToRgb].
  rewrite !parse_hex_pair_of_hex_pair by assumption. reflexivity.
Qed.

Lemma hexToRgb_reads_hex_colour_witness :
  LineChart.hexToRgb "#10b981"
  = Some {| LineChart.r := 16; LineChart.g := 185; LineChart.b := 129 |}.
Proof.
  apply (hexToRgb_reads_hex_colour 16 185 129); reflexivity.
Defined.

Lemma hex_digit_bound (c : ascii) (n : N) :
  LineChart.hex_digit c = Some n -> (n < 16)%N.
Proof.
  unfold LineChart.hex_digit.
  set (k := N_of_ascii c). clearbody k.
  destruct ((48 <=? k) && (k <=? 57))%N eqn:E1.
  - apply andb_true_iff in E1. destruct E1 as [A B].
    apply N.leb_le in A, B. intros [= <-]. lia.
  - destruct ((97 <=? k) && (k <=? 102))%N eqn:E2.
    + apply andb_true_iff in E2. destruct E2 as [A B].
      apply N.leb_le in A, B. intros [= <-]. lia.
    + destruct ((65 <=? k) && (k <=? 70))%N eqn:E3; [|discriminate].
      apply andb_true_iff in E3. destruct E3 as [A B].
      apply N.leb_le in A, B. intros [= <-]. lia.
Qed.

Lemma parse_hex_pair_bound (c1 c2 : ascii) (q : Q) :
  LineChart.parse_hex_pair c1 c2 = Some q ->
  JS.is_integer q /\ 0 <= q <= 255.
Proof.
  unfold LineChart.parse_hex_pair.
  destruct (LineChart.hex_digit c1) as [h|] eqn:E1; [|discriminate].
  destruct (LineChart.hex_digit c2) as [l|] eqn:E2; [|discriminate].
  apply hex_digit_bound in E1, E2. intros [= <-].
  split; [apply is_integer_inject_Z|].
  assert (H : (0 <= Z.of_N (16 * h + l) <= 255)%Z) by lia.
  destruct H as [H0 H1]. rewrite Zle_Qle in H0, H1. split; assumption.
Qed.

Lemma strip_hash (hex : string) :
  let digits := match hex with
                | String "#"%char rest => rest
                | _ => hex
                end in
  digits = hex \/ hex = String "#"%char digits.
Proof.
  destruct hex as [|a rest]; [left; reflexivity|].
  destruct a as [[] [] [] [] [] [] [] []];
    first [left; reflexivity | right; reflexivity].
Qed.

(** A colour string is accepted only if it is six characters long, or
    seven with a leading [#]; the channels read are then whole numbers in
    [0, 255].  Everything else gives the source's [null]. *)
Theorem hexToRgb_accepts_only_hex (hex : string) (rgb : LineChart.Rgb) :
  LineChart.hexToRgb hex = Some rgb ->
  (String.length hex = 6%nat \/
   (String.length hex = 7%nat /\ exists rest, hex = String "#"%char rest)) /\
  (JS.is_integer (LineChart.r rgb) /\ 0 <= LineChart.r rgb <= 255) /\
  (JS.is_integer (LineChart.g rgb) /\ 0 <= LineChart.g rgb <= 255) /\
  (JS.is_integer (LineChart.b rgb) /\ 0 <= LineChart.b rgb <= 255).
Proof.
  unfold LineChart.hexToRgb.
  pose proof (strip_hash hex) as Hstrip. cbv zeta in Hstrip.
  set (digits := match hex with
                 | String "#"%char rest => rest
                 | _ => hex
                 end) in *.
  clearbody digits.
  destruct digits as [|r1 [|r2 [|g1 [|g2 [|b1 [|b2 [|x rest]]]]]]];
    try discriminate.
  destruct (LineChart.parse_hex_pair r1 r2) as [red|] eqn:Er; [|discriminate].
  destruct (LineChart.parse_hex_pair g1 g2) as [green|] eqn:Eg; [|discriminate].
  destruct (LineChart.parse_hex_pair b1 b2) as [blue|] eqn:Eb; [|discriminate].
  intros [= <-]. cbn [LineChart.r LineChart.g LineChart.b].
  split.
  - destruct Hstrip as [<-| ->].
    + left. reflexivity.
    + right. split; [reflexivity|]. eexists. reflexivity.
  - repeat split; eapply parse_hex_pair_bound; eassumption.
Qed.

Lemma hexToRgb_accepts_only_hex_witness :
  String.length "EC4899" = 6%nat \/
  (String.length "EC4899" = 7%nat /\ exists rest, "EC4899"%string = String "#"%char rest).
Proof.
  apply (hexToRgb_accepts_only_hex "EC4899"
           {| LineChart.r := 236; LineChart.g := 72; LineChart.b := 153 |}).
  reflexivity.
Defined.

(** While an annotation with a palette colour is being dragged, its line
    is drawn four wide in the darkened colour: an [rgb(...)] triple of
    whole channels in [0, 235], never the fallback to the colour string. *)
Theorem dragged_line_is_darkened
    (v : LineChart.State) (index : nat) (a : Annotation.t) :
  LineChart.isDragging v a = true ->
  In (Annotation.color a) App.ANNOTATION_COLORS ->
  let cfg := LineChart.annotationConfig v index a in
  LineChart.borderWidth cfg = 4 /\
  exists red green blue : Q,
    LineChart.borderColor cfg = LineChart.css_rgb red green blue /\
    (JS.is_integer red /\ 0 <= red <= 235) /\
    (JS.is_integer green /\ 0 <= green <= 235) /\
    (JS.is_integer blue /\ 0 <= blue <= 235).
Proof.
  intros Hdrag Hcol cfg. subst cfg.
  unfold LineChart.annotationConfig. cbn [LineChart.borderWidth LineChart.borderColor].
  rewrite Hdrag. split; [reflexivity|].
  cbn in Hcol.
  repeat (destruct Hcol as [<-|Hcol];
          [do 3 eexists; split; [reflexivity|];
           repeat split; vm_compute; (reflexivity || discriminate)|]).
  contradiction.
Qed.

Lemma dragged_line_is_darkened_witness :
  let a := {| Annotation.id := "annotation-7"; Annotation.value := 120;
              Annotation.color := "#10B981" |} in
  let v := {| LineChart.dragging :=
                Some {| LineChart.type := LineChart.annotation;
                        LineChart.id := "annotation-7";
                        LineChart.name := "Annotation 1";
                        LineChart.position := 120; LineChart.value := 0 |};
              LineChart.tooltip := LineChart.hidden_tooltip;
              LineChart.isPanning := false; LineChart.panStartX := 0;
              LineChart.cursor := "grabbing" |} in
  LineChart.borderWidth (LineChart.annotationConfig v 0 a) = 4.
Proof.
  apply (dragged_line_is_darkened
           {| LineChart.dragging :=
                Some {| LineChart.type := LineChart.annotation;
                        LineChart.id := "annotation-7";
                        LineChart.name := "Annotation 1";
                        LineChart.position := 120; LineChart.value := 0 |};
              LineChart.tooltip := LineChart.hidden_tooltip;
              LineChart.isPanning := false; LineChart.panStartX := 0;
              LineChart.cursor := "grabbing" |}
           0
           {| Annotation.id := "annotation-7"; Annotation.value := 120;
              Annotation.color := "#10B981" |}).
  - reflexivity.
  - left. reflexivity.
Defined.





(** Wherever the point tooltip is suppressed for being near a marker,
    the marker hover has a target: a pointer whose pixel resolves to that
    x finds a marker (the filter's distance 5 lies inside the hit
    tolerance 10). *)
Theorem suppressed_tooltip_has_marker
    (p : LineChart.Props) (c : LineChart.Chart) (pixel mouseX : Q) :
  LineChart.getValueForPixel c pixel = Some mouseX ->
  LineChart.tooltipFilter p mouseX = false ->
  exists closest : LineChart.Closest,
    LineChart.getClosestAnnotation p (Some c) pixel = Some closest /\
    Qabs (LineChart.position closest - mouseX) < 10.
Proof.
  intros Hx Hf.
  pose proof (getClosestAnnotation_is_drag_target p c pixel mouseX Hx) as Ht.
  assert (Hnear : exists m, In m (Spec.markers p) /\
                            Qabs (Spec.index m - mouseX) < 5).
  { unfold LineChart.tooltipFilter in Hf.
    apply negb_false_iff, orb_true_iff in Hf. destruct Hf as [Hf|Hf].
    - apply existsb_exists in Hf. destruct Hf as (a & Ha & Hlt).
      exists (Spec.annotation_marker a). split.
      + right. apply in_map, Ha.
      + apply JS_lt_true in Hlt. exact Hlt.
    - exists (Spec.current_marker p). split; [left; reflexivity|].
      apply JS_lt_true in Hf. exact Hf. }
  destruct Hnear as (m & Hin & Hlt).
  destruct (Spec.drag_target p mouseX) as [m'|] eqn:E.
  - destruct (LineChart.getClosestAnnotation p (Some c) pixel) as [closest|];
      [|discriminate].
    exists closest. split; [reflexivity|].
    cbn in Ht. injection Ht as Ht.
    unfold Spec.drag_target in E. apply find_some in E. destruct E as [_ E].
    unfold Spec.within_tolerance in E. apply JS_lt_true in E.
    rewrite <- Ht in E. exact E.
  - unfold Spec.drag_target in E.
    pose proof (find_none _ _ E m Hin) as Hno.
    unfold Spec.within_tolerance in Hno. apply JS_lt_false in Hno. lra.
Qed.

Lemma suppressed_tooltip_has_marker_witness :
  exists closest : LineChart.Closest,
    LineChart.getClosestAnnotation (App.chart1 (Page.app Sample.page))
      (Some Sample.pixel_chart) 253 = Some closest /\
    Qabs (LineChart.position closest - 253) < 10.
Proof.
  apply (suppressed_tooltip_has_marker (App.chart1 (Page.app Sample.page))
           Sample.pixel_chart 253 253).
  - reflexivity.
  - reflexivity.
Defined.
